(** * Fly-Pie item registry: a shallow embedding of [src/common/ItemRegistry.js]

    The registry is a static table of item types.  Each item type carries
    some metadata and a factory [createItem] which builds a plain JavaScript
    record: either an action ([{name, icon, activate}]) or a submenu
    ([{name, icon, items}]).

    Modelling conventions.
    - JavaScript values are the inductive type [value]; an object is the list
      of its properties in insertion order, a function value is the closure
      it was created from (its code label and its captured variables).
    - An exception is the constructor [Throw] of [result]; [try]/[catch] is
      [try_catch].  Dereferencing [undefined] or [null] throws a TypeError.
    - The desktop (GLib, Gio, Gtk, GMenu, Shell, the [global] object) is the
      record [Host].  Host objects are records of what their methods return.
      Methods which perform input/output or an action return a [result].
      Getters are total, except those which answer [null] when there is
      nothing to return: the icon of an application or of a menu directory,
      a special directory which is not configured, an application which
      cannot be looked up, an entry of the list of most used applications.
    - Running an [activate] closure yields the list of host calls and
      notifications it performed, in order, together with its [result]. *)

From Stdlib Require Import List String Ascii ZArith Lia Bool.
From Stdlib Require Import DecimalString.
Import ListNotations.
Local Open Scope string_scope.
Local Open Scope Z_scope.

Set Implicit Arguments.
Set Warnings "-register-all".

(** ** Exceptions *)

(** A thrown value, as string concatenation renders it. *)
Definition error := string.

Inductive result (A : Type) : Type :=
| Ok (a : A)
| Throw (e : error).
Arguments Ok {A} a.
Arguments Throw {A} e.

Definition bind {A B} (m : result A) (k : A -> result B) : result B :=
  match m with
  | Ok a => k a
  | Throw e => Throw e
  end.

Definition try_catch {A} (m : result A) (handler : error -> result A) : result A :=
  match m with
  | Ok a => Ok a
  | Throw e => handler e
  end.

Declare Scope js_scope.
Delimit Scope js_scope with js.
Notation "'let?' x ':=' m 'in' k" := (bind m (fun x => k))
  (at level 61, x name, m at next level, right associativity) : js_scope.
Local Open Scope js_scope.

Definition TypeError (what : string) : error := "TypeError: " ++ what.

(** [o.m] where [o] may be [undefined] or [null]. *)
Definition deref {A} (what : string) (o : option A) : result A :=
  match o with
  | Some a => Ok a
  | None => Throw (TypeError (what ++ " is undefined"))
  end.

(** ** Host objects *)

(** Gio.Icon *)
Module Icon.
Record t := { to_string : string }.
End Icon.

(** Gio.AppInfo / Gio.DesktopAppInfo.  [get_icon] is tested against [null]
    by the MainMenu item type. *)
Module AppInfo.
Record t := {
  get_name : string;
  get_icon : option Icon.t;
  launch : result unit   (* launch([], ctx) *)
}.
End AppInfo.

(** Meta.Window *)
Module Window.
Record t := {
  get_title : string;
  activate : result unit   (* activate(0) *)
}.
End Window.

(** Shell.App *)
Module App.
Record t := {
  get_name : string;
  get_app_info : AppInfo.t;
  get_windows : list Window.t;
  open_new_window : result unit   (* open_new_window(-1) *)
}.
End App.

(** Gio.FileInfo *)
Module FileInfo.
Record t := {
  get_display_name : string;
  get_icon : Icon.t
}.
End FileInfo.

(** Gio.File.  [query_info] takes the attribute string and does input/output. *)
Module File.
Record t := {
  query_info : string -> result FileInfo.t;
  get_basename : string;
  get_uri : string
}.
End File.

(** Gtk.RecentInfo *)
Module RecentInfo.
Record t := {
  exists_ : bool;   (* exists() *)
  get_display_name : string;
  get_gicon : Icon.t;
  get_uri : string
}.
End RecentInfo.

(** GMenu.TreeItemType *)
Module TreeItemType.
Inductive t := INVALID | DIRECTORY | ENTRY | SEPARATOR | HEADER | ALIAS.
End TreeItemType.

(** GMenu.TreeDirectory and the nodes its iterator walks over.  A node of
    type ENTRY is given by [iter.get_entry().get_app_info()], a node of type
    DIRECTORY by [iter.get_directory()].  A directory without an icon answers
    [null] to [get_icon()]. *)
Inductive TreeDirectory : Type :=
| mkTreeDirectory (get_name : string) (get_icon : option Icon.t)
    (contents : list TreeItem)
with TreeItem : Type :=
| Entry (app_info : AppInfo.t)
| Directory (directory : TreeDirectory)
| Separator
| Header
| Alias.

Definition TreeItem_type (node : TreeItem) : TreeItemType.t :=
  match node with
  | Entry _ => TreeItemType.ENTRY
  | Directory _ => TreeItemType.DIRECTORY
  | Separator => TreeItemType.SEPARATOR
  | Header => TreeItemType.HEADER
  | Alias => TreeItemType.ALIAS
  end.

(** GLib.UserDirectory *)
Module UserDirectory.
Inductive t :=
| DIRECTORY_DESKTOP | DIRECTORY_DOCUMENTS | DIRECTORY_DOWNLOAD | DIRECTORY_MUSIC
| DIRECTORY_PICTURES | DIRECTORY_PUBLIC_SHARE | DIRECTORY_TEMPLATES | DIRECTORY_VIDEOS.
End UserDirectory.

(** ** JavaScript values *)

Inductive value : Type :=
| VUndefined
| VNull
| VBool (b : bool)
| VNum (n : Z)
| VStr (s : string)
| VFun (f : closure)
| VArr (elems : list value)
| VObj (props : list (string * value))

(** The [activate] arrow functions of the registry, one constructor per
    arrow function, with the variables it captures. *)
with closure : Type :=
| Hotkey_activate (hotkey : value)
| Command_activate (command : value)
| Url_activate (url : value)
| File_activate (file : value)
| Bookmarks_activate (file : File.t)
| RunningApps_activate (window : Window.t)
| RecentFiles_activate (recentFile : RecentInfo.t)
| FrequentlyUsed_activate (app : App.t)
| Favorites_activate (app : App.t)
| MainMenu_activate (app : AppInfo.t).

(** ** The host *)

(** Me.imports.common.InputManipulator.InputManipulator *)
Module InputManipulator.
Record t := { activateAccelerator : value -> result unit }.
End InputManipulator.

(** The object [global] of the Shell process, as far as the registry uses
    it. *)
Module Global.
Record t := {
  create_app_launch_context : result unit;   (* create_app_launch_context(0, -1) *)
  settings_get_strv : string -> list string   (* settings.get_strv(key) *)
}.
End Global.

(** imports.gi.Shell, as far as the registry uses it. *)
Module Shell.
Record t := {
  AppSystem_get_running : list App.t;
  AppSystem_lookup_app : string -> option App.t;
  AppUsage_get_most_used : list (option App.t)
}.
End Shell.

Record Host := {
  (* what the optional imports at the top of the file evaluate to *)
  imports_gi_Shell : result Shell.t;
  new_InputManipulator : result InputManipulator.t;
  (* the [this] of the module scope, which the arrow functions capture *)
  module_this : option (list (string * value));
  (* the JavaScript engine's coercions of non-primitive values (and of
     numbers which are printed with an exponent) *)
  coerce_to_string : value -> string;
  coerce_to_integer : value -> Z;
  (* GLib; a special directory which is not configured is [null] *)
  GLib_get_home_dir : string;
  GLib_get_user_special_dir : UserDirectory.t -> option string;
  (* Gio; the file constructor, for a path which is not [null] *)
  Gio_File_new_for_path : string -> File.t;
  Gio_AppInfo_create_from_commandline : value -> result AppInfo.t;
  Gio_AppInfo_launch_default_for_uri : string -> result unit;
  (* Gtk.RecentManager.get_default().get_items() *)
  Gtk_RecentManager_get_items : list RecentInfo.t;
  (* GMenu.Tree for applications.menu *)
  GMenu_Tree_load_sync : result unit;
  GMenu_Tree_get_root_directory : TreeDirectory;
  (* the object [global], where there is one *)
  global_object : Global.t
}.

(** The module-level bindings [Shell] and [InputManipulator]: both start as
    [undefined]; the two assignments sit in one [try] block, so the second is
    skipped when the first throws. *)
Record Bindings := {
  Shell : option Shell.t;
  InputManipulator : option InputManipulator.t
}.

Definition load (h : Host) : Bindings :=
  match imports_gi_Shell h with
  | Throw _ => {| Shell := None; InputManipulator := None |}
  | Ok sh =>
      match new_InputManipulator h with
      | Throw _ => {| Shell := Some sh; InputManipulator := None |}
      | Ok im => {| Shell := Some sh; InputManipulator := Some im |}
      end
  end.

(** The object [global] belongs to the Shell process.  The file is also
    loaded by the preferences dialog, where Shell cannot be imported (see the
    comment above the optional imports) and no [global] exists: reading
    [global] throws a ReferenceError there. *)
Definition global (h : Host) : result Global.t :=
  match imports_gi_Shell h with
  | Ok _ => Ok (global_object h)
  | Throw _ => Throw "ReferenceError: global is not defined"
  end.

(** [global.create_app_launch_context(0, -1)]; where there is no [global]
    the call expression itself throws the ReferenceError. *)
Definition global_create_app_launch_context (h : Host) : result unit :=
  let? g := global h in
  Global.create_app_launch_context g.

(** What [global.settings.get_strv(key)] answers in the Shell process. *)
Definition global_settings_get_strv (h : Host) (key : string) : list string :=
  Global.settings_get_strv (global_object h) key.

(** [Gio.File.new_for_path(path)]: the binding refuses [null] for the path. *)
Definition File_new_for_path (h : Host) (path : option string) : result File.t :=
  match path with
  | Some p => Ok (Gio_File_new_for_path h p)
  | None => Throw "Error: Argument path may not be null"
  end.

(** ** JavaScript helpers *)

Definition ToString (h : Host) (v : value) : string :=
  match v with
  | VStr s => s
  | VUndefined => "undefined"
  | VNull => "null"
  | VBool true => "true"
  | VBool false => "false"
  | VNum n =>
      if Z.abs n <? 10 ^ 21 then NilZero.string_of_int (Z.to_int n)
      else coerce_to_string h v
  | _ => coerce_to_string h v
  end.

Definition ToIntegerOrInfinity (h : Host) (v : value) : Z :=
  match v with
  | VNum n => n
  | VUndefined => 0
  | VNull => 0
  | VBool true => 1
  | VBool false => 0
  | _ => coerce_to_integer h v
  end.

(** [array.slice(0, end)] *)
Definition slice0 {A} (h : Host) (array : list A) (end_ : value) : list A :=
  let len := Z.of_nat (List.length array) in
  let relativeEnd :=
    match end_ with
    | VUndefined => len
    | _ => ToIntegerOrInfinity h end_
    end in
  let final := if relativeEnd <? 0 then Z.max (len + relativeEnd) 0
               else Z.min relativeEnd len in
  firstn (Z.to_nat final) array.

Fixpoint get_prop (key : string) (props : list (string * value)) : value :=
  match props with
  | [] => VUndefined
  | (k, v) :: rest => if String.eqb k key then v else get_prop key rest
  end.

Fixpoint set_prop (key : string) (v : value) (props : list (string * value))
  : list (string * value) :=
  match props with
  | [] => [(key, v)]
  | (k, w) :: rest =>
      if String.eqb k key then (k, v) :: rest else (k, w) :: set_prop key v rest
  end.

(** [menu.items.push(item)]; the mutated [menu] is returned. *)
Definition items_push (menu item : value) : result value :=
  match menu with
  | VObj props =>
      match get_prop "items" props with
      | VArr elems => Ok (VObj (set_prop "items" (VArr (elems ++ [item])%list) props))
      | _ => Throw (TypeError "menu.items.push is not a function")
      end
  | _ => Throw (TypeError "menu.items is undefined")
  end.

(** [array.forEach(body)] and [for (let i = 0; i < array.length; ++i) body(array[i])],
    threading the object the body mutates. *)
Fixpoint forEach {A S} (array : list A) (body : S -> A -> result S) (s : S)
  : result S :=
  match array with
  | [] => Ok s
  | x :: rest => let? s' := body s x in forEach rest body s'
  end.

(** [fmt.format(...args)], for the directives [%s] and [%%]. *)
Fixpoint format (h : Host) (fmt : string) (args : list value) : string :=
  match fmt with
  | EmptyString => EmptyString
  | String "%" (String "s" rest) =>
      match args with
      | [] => ToString h VUndefined ++ format h rest []
      | a :: args' => ToString h a ++ format h rest args'
      end
  | String "%" (String "%" rest) => String "%" (format h rest args)
  | String c rest => String c (format h rest args)
  end.

(** ** Running an activation *)

Inductive HostApi :=
| activateAccelerator
| create_app_launch_context
| create_from_commandline
| AppInfo_launch
| launch_default_for_uri
| File_get_uri
| RecentInfo_get_uri
| Window_activate
| App_open_new_window.

Inductive Event :=
| Called (api : HostApi) (threw : bool)
| Notified (message : string).

(** A computation which logs events and then returns or throws. *)
Definition Act (A : Type) : Type := (list Event * result A)%type.

Definition ret {A} (a : A) : Act A := ([], Ok a).

Definition throw {A} (e : error) : Act A := ([], Throw e).

Definition abind {A B} (m : Act A) (k : A -> Act B) : Act B :=
  match m with
  | (log, Ok a) => let (log', r) := k a in ((log ++ log')%list, r)
  | (log, Throw e) => (log, Throw e)
  end.

Definition atry {A} (m : Act A) (handler : error -> Act A) : Act A :=
  match m with
  | (log, Ok a) => (log, Ok a)
  | (log, Throw e) => let (log', r) := handler e in ((log ++ log')%list, r)
  end.

Definition threw {A} (outcome : result A) : bool :=
  match outcome with
  | Ok _ => false
  | Throw _ => true
  end.

Definition call {A} (api : HostApi) (outcome : result A) : Act A :=
  ([Called api (threw outcome)], outcome).

(** Modelled from the spec: [utils.notification] lives in [common/utils.js],
    which is not among the sources; the spec has the failure handler emit a
    user notification string. *)
Definition notification (message : string) : Act unit :=
  ([Notified message], Ok tt).

Notation "'do' x '<-' m ';' k" := (abind m (fun x => k))
  (at level 61, x name, m at next level, right associativity) : js_scope.

Definition quote : string := String "034"%char EmptyString.

(** [this.name] inside the arrow functions. *)
Definition this_name (h : Host) : Act value :=
  match module_this h with
  | Some props => ret (get_prop "name" props)
  | None => throw (TypeError "this is undefined")
  end.

Definition activate (h : Host) (f : closure) : Act unit :=
  match f with
  | Hotkey_activate hotkey =>
      match InputManipulator (load h) with
      | Some im => call activateAccelerator (InputManipulator.activateAccelerator im hotkey)
      | None => throw (TypeError "InputManipulator is undefined")
      end
  | Command_activate command =>
      atry
        (do ctx <- call create_app_launch_context (global_create_app_launch_context h);
         do item <- call create_from_commandline
                      (Gio_AppInfo_create_from_commandline h command);
         call AppInfo_launch (AppInfo.launch item))
        (fun error => notification ("Failed to execute command: " ++ error))
  | Url_activate url =>
      atry
        (call launch_default_for_uri
           (Gio_AppInfo_launch_default_for_uri h (ToString h url)))
        (fun error => notification ("Failed to open URL: " ++ error))
  | File_activate file =>
      atry
        (call launch_default_for_uri
           (Gio_AppInfo_launch_default_for_uri h ("file://" ++ ToString h file)))
        (fun error => notification ("Failed to open file: " ++ error))
  | Bookmarks_activate file =>
      do ctx <- call create_app_launch_context (global_create_app_launch_context h);
      atry
        (do uri <- call File_get_uri (Ok (File.get_uri file));
         call launch_default_for_uri (Gio_AppInfo_launch_default_for_uri h uri))
        (fun error =>
           do name <- this_name h;
           notification
             (format h ("Failed to open " ++ quote ++ "%s" ++ quote ++ ": %s")
                [name; VStr error]))
  | RunningApps_activate window =>
      call Window_activate (Window.activate window)
  | RecentFiles_activate recentFile =>
      do ctx <- call create_app_launch_context (global_create_app_launch_context h);
      atry
        (do uri <- call RecentInfo_get_uri (Ok (RecentInfo.get_uri recentFile));
         call launch_default_for_uri (Gio_AppInfo_launch_default_for_uri h uri))
        (fun error => notification ("Failed to open URI: " ++ error))
  | FrequentlyUsed_activate app =>
      call App_open_new_window (App.open_new_window app)
  | Favorites_activate app =>
      call App_open_new_window (App.open_new_window app)
  | MainMenu_activate app =>
      do ctx <- call create_app_launch_context (global_create_app_launch_context h);
      atry
        (call AppInfo_launch (AppInfo.launch app))
        (fun error => notification ("Failed to launch app: " ++ error))
  end.

(** ** The registry *)

Definition SettingsTypes : list (string * Z) :=
  [("NONE", 0); ("HOTKEY", 1); ("COMMAND", 2); ("FILE", 3); ("URL", 4); ("COUNT", 5)].

Definition SettingsTypes_ (key : string) : Z :=
  match find (fun kv => String.eqb (fst kv) key) SettingsTypes with
  | Some kv => snd kv
  | None => 0
  end.

(** The i-th actual argument of a call; a missing argument is [undefined]. *)
Definition arg (i : nat) (args : list value) : value := nth i args VUndefined.

Module ItemType.
Record t := {
  name : string;
  icon : string;
  description : string;
  settingsType : Z;
  settingsList : string;
  createItem : Host -> list value -> result value
}.
End ItemType.

(** *** Actions *)

Definition Hotkey_createItem (h : Host) (args : list value) : result value :=
  let name := arg 0 args in
  let icon := arg 1 args in
  let hotkey := arg 2 args in
  Ok (VObj [("name", name); ("icon", icon); ("activate", VFun (Hotkey_activate hotkey))]).

Definition Command_createItem (h : Host) (args : list value) : result value :=
  let name := arg 0 args in
  let icon := arg 1 args in
  let command := arg 2 args in
  Ok (VObj [("name", name); ("icon", icon); ("activate", VFun (Command_activate command))]).

Definition Url_createItem (h : Host) (args : list value) : result value :=
  let name := arg 0 args in
  let icon := arg 1 args in
  let url := arg 2 args in
  Ok (VObj [("name", name); ("icon", icon); ("activate", VFun (Url_activate url))]).

Definition File_createItem (h : Host) (args : list value) : result value :=
  let name := arg 0 args in
  let icon := arg 1 args in
  let file := arg 2 args in
  Ok (VObj [("name", name); ("icon", icon); ("activate", VFun (File_activate file))]).

(** *** Submenus *)

Definition pushFile (menu : value) (file : File.t) : result value :=
  let? name :=
    try_catch
      (let? info := File.query_info file "standard::display-name" in
       Ok (FileInfo.get_display_name info))
      (fun e => Ok (File.get_basename file)) in
  let? icon :=
    try_catch
      (let? info := File.query_info file "standard::icon" in
       Ok (Icon.to_string (FileInfo.get_icon info)))
      (fun e => Ok "missing-image") in
  items_push menu
    (VObj [("name", VStr name); ("icon", VStr icon);
           ("activate", VFun (Bookmarks_activate file))]).

Definition DEFAULT_DIRECTORIES : list UserDirectory.t :=
  [UserDirectory.DIRECTORY_DESKTOP; UserDirectory.DIRECTORY_DOCUMENTS;
   UserDirectory.DIRECTORY_DOWNLOAD; UserDirectory.DIRECTORY_MUSIC;
   UserDirectory.DIRECTORY_PICTURES; UserDirectory.DIRECTORY_TEMPLATES;
   UserDirectory.DIRECTORY_PUBLIC_SHARE; UserDirectory.DIRECTORY_VIDEOS].

Definition Bookmarks_createItem (h : Host) (args : list value) : result value :=
  let name := arg 0 args in
  let icon := arg 1 args in
  let result := VObj [("name", name); ("icon", icon); ("items", VArr [])] in
  let? file := File_new_for_path h (Some (GLib_get_home_dir h)) in
  let? result := pushFile result file in
  forEach DEFAULT_DIRECTORIES
    (fun result dir =>
       let path := GLib_get_user_special_dir h dir in
       let? file := File_new_for_path h path in
       pushFile result file)
    result.

Definition RunningApps_createItem (h : Host) (args : list value) : result value :=
  let name := arg 0 args in
  let icon := arg 1 args in
  let? shell := deref "Shell" (Shell (load h)) in
  let apps := Shell.AppSystem_get_running shell in
  let result := VObj [("name", name); ("icon", icon); ("items", VArr [])] in
  forEach apps
    (fun result app =>
       let windows := App.get_windows app in
       let? gicon := deref "get_icon()" (AppInfo.get_icon (App.get_app_info app)) in
       let icon := Icon.to_string gicon in
       forEach windows
         (fun result window =>
            items_push result
              (VObj [("name", VStr (Window.get_title window)); ("icon", VStr icon);
                     ("activate", VFun (RunningApps_activate window))]))
         result)
    result.

Definition RecentFiles_createItem (h : Host) (args : list value) : result value :=
  let name := arg 0 args in
  let icon := arg 1 args in
  let maxNum := arg 2 args in
  let recentFiles := slice0 h (Gtk_RecentManager_get_items h) maxNum in
  let result := VObj [("name", name); ("icon", icon); ("items", VArr [])] in
  forEach recentFiles
    (fun result recentFile =>
       if RecentInfo.exists_ recentFile then
         items_push result
           (VObj [("name", VStr (RecentInfo.get_display_name recentFile));
                  ("icon", VStr (Icon.to_string (RecentInfo.get_gicon recentFile)));
                  ("activate", VFun (RecentFiles_activate recentFile))])
       else Ok result)
    result.

Definition FrequentlyUsed_createItem (h : Host) (args : list value) : result value :=
  let name := arg 0 args in
  let icon := arg 1 args in
  let maxNum := arg 2 args in
  let? shell := deref "Shell" (Shell (load h)) in
  let apps := slice0 h (Shell.AppUsage_get_most_used shell) maxNum in
  let result := VObj [("name", name); ("icon", icon); ("items", VArr [])] in
  forEach apps
    (fun result app =>
       match app with
       | Some app =>
           let? gicon := deref "get_icon()" (AppInfo.get_icon (App.get_app_info app)) in
           items_push result
             (VObj [("name", VStr (App.get_name app));
                    ("icon", VStr (Icon.to_string gicon));
                    ("activate", VFun (FrequentlyUsed_activate app))])
       | None => Ok result
       end)
    result.

Definition Favorites_createItem (h : Host) (args : list value) : result value :=
  let name := arg 0 args in
  let icon := arg 1 args in
  let? g := global h in
  let appNames := Global.settings_get_strv g "favorite-apps" in
  let result := VObj [("name", name); ("icon", icon); ("items", VArr [])] in
  forEach appNames
    (fun result appName =>
       let? shell := deref "Shell" (Shell (load h)) in
       match Shell.AppSystem_lookup_app shell appName with
       | Some app =>
           let? gicon := deref "get_icon()" (AppInfo.get_icon (App.get_app_info app)) in
           items_push result
             (VObj [("name", VStr (App.get_name app));
                    ("icon", VStr (Icon.to_string gicon));
                    ("activate", VFun (Favorites_activate app))])
       | None => Ok result
       end)
    result.

(** The [while] loop of [pushMenuItems] runs over the iterator of [dir]; the
    iterator answers INVALID once it is exhausted. *)
Fixpoint pushMenuItems (menu : value) (dir : TreeDirectory) : result value :=
  match dir with
  | mkTreeDirectory _ _ contents =>
      (fix while (iter : list TreeItem) (menu : value) : result value :=
         match iter with
         | [] => Ok menu
         | node :: iter =>
             match node with
             | Entry app =>
                 let icon := "missing-image" in
                 let icon :=
                   match AppInfo.get_icon app with
                   | Some gicon => Icon.to_string gicon
                   | None => icon
                   end in
                 let item :=
                   VObj [("name", VStr (AppInfo.get_name app)); ("icon", VStr icon);
                         ("activate", VFun (MainMenu_activate app))] in
                 let? menu := items_push menu item in
                 while iter menu
             | Directory directory =>
                 let? item :=
                   match directory with
                   | mkTreeDirectory get_name get_icon _ =>
                       let? gicon := deref "get_icon()" get_icon in
                       Ok (VObj [("name", VStr get_name);
                                 ("icon", VStr (Icon.to_string gicon));
                                 ("items", VArr [])])
                   end in
                 let? item := pushMenuItems item directory in
                 let? menu := items_push menu item in
                 while iter menu
             | _ => while iter menu
             end
         end) contents menu
  end.

Definition MainMenu_createItem (h : Host) (args : list value) : result value :=
  let name := arg 0 args in
  let icon := arg 1 args in
  let? _ := GMenu_Tree_load_sync h in
  let result := VObj [("name", name); ("icon", icon); ("items", VArr [])] in
  pushMenuItems result (GMenu_Tree_get_root_directory h).

Definition newline : string := String "010"%char EmptyString.

Definition ItemTypes : list (string * ItemType.t) :=
  [ ("Hotkey",
     {| ItemType.name := "Press Hotkey";
        ItemType.icon := "accessories-character-map";
        ItemType.description := "Simulates a key stroke.";
        ItemType.settingsType := SettingsTypes_ "HOTKEY";
        ItemType.settingsList := "action-types-list";
        ItemType.createItem := Hotkey_createItem |});
    ("Command",
     {| ItemType.name := "Launch Application";
        ItemType.icon := "utilities-terminal";
        ItemType.description := "Runs any shell command.";
        ItemType.settingsType := SettingsTypes_ "COMMAND";
        ItemType.settingsList := "action-types-list";
        ItemType.createItem := Command_createItem |});
    ("Url",
     {| ItemType.name := "Open URL";
        ItemType.icon := "applications-internet";
        ItemType.description := "Opens an URL with the default browser.";
        ItemType.settingsType := SettingsTypes_ "URL";
        ItemType.settingsList := "action-types-list";
        ItemType.createItem := Url_createItem |});
    ("File",
     {| ItemType.name := "Open File";
        ItemType.icon := "text-x-generic";
        ItemType.description := "Opens a file with the default applications.";
        ItemType.settingsType := SettingsTypes_ "FILE";
        ItemType.settingsList := "action-types-list";
        ItemType.createItem := File_createItem |});
    ("Bookmarks",
     {| ItemType.name := "Bookmarks";
        ItemType.icon := "folder";
        ItemType.description := "Shows your commonly used directories.";
        ItemType.settingsType := SettingsTypes_ "NONE";
        ItemType.settingsList := "submenu-types-list";
        ItemType.createItem := Bookmarks_createItem |});
    ("RunningApps",
     {| ItemType.name := "Running Apps";
        ItemType.icon := "preferences-system-windows";
        ItemType.description := "Shows the currently running applications.";
        ItemType.settingsType := SettingsTypes_ "NONE";
        ItemType.settingsList := "submenu-types-list";
        ItemType.createItem := RunningApps_createItem |});
    ("RecentFiles",
     {| ItemType.name := "Recent Files";
        ItemType.icon := "document-open-recent";
        ItemType.description := "Shows your recently used files.";
        ItemType.settingsType := SettingsTypes_ "COUNT";
        ItemType.settingsList := "submenu-types-list";
        ItemType.createItem := RecentFiles_createItem |});
    ("FrequentlyUsed",
     {| ItemType.name := "Frequently Used";
        ItemType.icon := "emblem-favorite";
        ItemType.description := "Shows your frequently used applications.";
        ItemType.settingsType := SettingsTypes_ "COUNT";
        ItemType.settingsList := "submenu-types-list";
        ItemType.createItem := FrequentlyUsed_createItem |});
    ("Favorites",
     {| ItemType.name := "Favorites";
        ItemType.icon := "starred";
        ItemType.description := "Shows your pinned applications.";
        ItemType.settingsType := SettingsTypes_ "NONE";
        ItemType.settingsList := "submenu-types-list";
        ItemType.createItem := Favorites_createItem |});
    ("MainMenu",
     {| ItemType.name := "Main Menu";
        ItemType.icon := "applications-system";
        ItemType.description :=
          "Shows all installed applications." ++ newline ++
          "Usually, this is very cluttered;" ++ newline ++
          "you should rather setup your own menus!";
        ItemType.settingsType := SettingsTypes_ "NONE";
        ItemType.settingsList := "submenu-types-list";
        ItemType.createItem := MainMenu_createItem |}) ].

(** ** Vocabulary of the properties *)

Definition leaf (name icon : value) (f : closure) : value :=
  VObj [("name", name); ("icon", icon); ("activate", VFun f)].

Definition container (name icon : value) (items : list value) : value :=
  VObj [("name", name); ("icon", icon); ("items", VArr items)].

(** [item.items] *)
Definition items_of (item : value) : list value :=
  match item with
  | VObj props =>
      match get_prop "items" props with
      | VArr elems => elems
      | _ => []
      end
  | _ => []
  end.

(** [item.activate], when it is a function. *)
Definition activation_of (item : value) : option closure :=
  match item with
  | VObj props =>
      match get_prop "activate" props with
      | VFun f => Some f
      | _ => None
      end
  | _ => None
  end.

(** [item.key] *)
Definition prop (key : string) (item : value) : value :=
  match item with
  | VObj props => get_prop key props
  | _ => VUndefined
  end.

(** The two record shapes: the properties are exactly [name], [icon] and
    either a function [activate] or an array [items] of such records. *)
Fixpoint is_MenuItem (v : value) : bool :=
  match v with
  | VObj [(k1, _); (k2, _); (k3, v3)] =>
      String.eqb k1 "name" && String.eqb k2 "icon" &&
      match v3 with
      | VFun _ => String.eqb k3 "activate"
      | VArr elems => String.eqb k3 "items" && forallb is_MenuItem elems
      | _ => false
      end
  | _ => false
  end.

Definition nonempty_string (v : value) : bool :=
  match v with
  | VStr s => negb (String.eqb s "")
  | _ => false
  end.

(** Every record of the tree has a non-empty [name] and [icon] string. *)
Fixpoint all_named (v : value) : bool :=
  match v with
  | VObj props =>
      nonempty_string (get_prop "name" props) &&
      nonempty_string (get_prop "icon" props) &&
      forallb
        (fun kv =>
           match kv with
           | (k, VArr elems) =>
               if String.eqb k "items" then forallb all_named elems else true
           | _ => true
           end)
        props
  | _ => false
  end.

(** What a loop body appends, entry by entry, until one of them throws. *)
Fixpoint collect {A} (g : A -> result (list value)) (entries : list A)
  : result (list value) :=
  match entries with
  | [] => Ok []
  | x :: rest =>
      let? ys := g x in
      let? zs := collect g rest in
      Ok (ys ++ zs)%list
  end.

(** The entries of a host array which are not [null]. *)
Definition non_null {A} (array : list (option A)) : list A :=
  flat_map (fun x => match x with Some a => [a] | None => [] end) array.



Definition notifications (log : list Event) : list string :=
  flat_map (fun ev => match ev with Notified m => [m] | _ => [] end) log.

(** ** The records each builder pushes

    These restate, entry by entry, what the loop bodies of the factories
    push; the equations relating them to the factories are proved below. *)

(** The record [pushFile] pushes for [file]. *)
Definition Bookmarks_item (file : File.t) : value :=
  leaf
    (VStr match File.query_info file "standard::display-name" with
          | Ok info => FileInfo.get_display_name info
          | Throw _ => File.get_basename file
          end)
    (VStr match File.query_info file "standard::icon" with
          | Ok info => Icon.to_string (FileInfo.get_icon info)
          | Throw _ => "missing-image"
          end)
    (Bookmarks_activate file).

(** The paths Bookmarks visits: the home directory, then the default
    directories; a directory which is not configured has the path [null]. *)
Definition Bookmarks_paths (h : Host) : list (option string) :=
  Some (GLib_get_home_dir h) :: map (GLib_get_user_special_dir h) DEFAULT_DIRECTORIES.

(** What Bookmarks pushes for a path. *)
Definition Bookmarks_items (h : Host) (path : option string) : result (list value) :=
  let? file := File_new_for_path h path in
  Ok [Bookmarks_item file].

(** The records RunningApps pushes for one application: one per window. *)
Definition RunningApps_items (app : App.t) : result (list value) :=
  let? gicon := deref "get_icon()" (AppInfo.get_icon (App.get_app_info app)) in
  Ok (map
        (fun window =>
           leaf (VStr (Window.get_title window)) (VStr (Icon.to_string gicon))
             (RunningApps_activate window))
        (App.get_windows app)).

Definition RecentFiles_item (recentFile : RecentInfo.t) : value :=
  leaf (VStr (RecentInfo.get_display_name recentFile))
    (VStr (Icon.to_string (RecentInfo.get_gicon recentFile)))
    (RecentFiles_activate recentFile).

Definition RecentFiles_items (recentFile : RecentInfo.t) : result (list value) :=
  Ok (if RecentInfo.exists_ recentFile then [RecentFiles_item recentFile] else []).

(** The record FrequentlyUsed and Favorites push for an application. *)
Definition App_items (activate : App.t -> closure) (app : option App.t)
  : result (list value) :=
  match app with
  | Some app =>
      let? gicon := deref "get_icon()" (AppInfo.get_icon (App.get_app_info app)) in
      Ok [leaf (VStr (App.get_name app)) (VStr (Icon.to_string gicon)) (activate app)]
  | None => Ok []
  end.

Definition Favorites_items (h : Host) (appName : string) : result (list value) :=
  let? shell := deref "Shell" (Shell (load h)) in
  App_items Favorites_activate (Shell.AppSystem_lookup_app shell appName).

(** The record MainMenu pushes for a node of type ENTRY. *)
Definition MainMenu_entry_item (app : AppInfo.t) : value :=
  leaf (VStr (AppInfo.get_name app))
    (VStr match AppInfo.get_icon app with
          | Some gicon => Icon.to_string gicon
          | None => "missing-image"
          end)
    (MainMenu_activate app).

Definition TreeDirectory_get_name (dir : TreeDirectory) : string :=
  match dir with mkTreeDirectory get_name _ _ => get_name end.

Definition TreeDirectory_get_icon (dir : TreeDirectory) : option Icon.t :=
  match dir with mkTreeDirectory _ get_icon _ => get_icon end.

Definition TreeDirectory_contents (dir : TreeDirectory) : list TreeItem :=
  match dir with mkTreeDirectory _ _ contents => contents end.

(** The three-way switch of the menu walk, as the specification words it: an
    ENTRY gives one leaf, a DIRECTORY gives one container filled by the walk
    of that directory, any other node gives nothing.  Reading the icon of a
    directory which has none throws. *)
Fixpoint TreeDirectory_items (dir : TreeDirectory) : result (list value) :=
  match dir with
  | mkTreeDirectory _ _ contents =>
      (fix walk (nodes : list TreeItem) : result (list value) :=
         match nodes with
         | [] => Ok []
         | node :: rest =>
             let? ys :=
               match node with
               | Entry app => Ok [MainMenu_entry_item app]
               | Directory directory =>
                   let? gicon := deref "get_icon()" (TreeDirectory_get_icon directory) in
                   let? items := TreeDirectory_items directory in
                   Ok [container (VStr (TreeDirectory_get_name directory))
                         (VStr (Icon.to_string gicon)) items]
               | _ => Ok []
               end in
             let? zs := walk rest in
             Ok (ys ++ zs)%list
         end) contents
  end.

Definition TreeItem_items (node : TreeItem) : result (list value) :=
  match node with
  | Entry app => Ok [MainMenu_entry_item app]
  | Directory directory =>
      let? gicon := deref "get_icon()" (TreeDirectory_get_icon directory) in
      let? items := TreeDirectory_items directory in
      Ok [container (VStr (TreeDirectory_get_name directory))
            (VStr (Icon.to_string gicon)) items]
  | _ => Ok []
  end.

(** The nodes of type ENTRY and DIRECTORY. *)
Definition pushed (node : TreeItem) : bool :=
  match node with
  | Entry _ | Directory _ => true
  | _ => false
  end.

(** [from_nodes nodes items]: the items stem from the nodes, in their order
    and at every depth: an ENTRY gives the item which activates its
    application, a DIRECTORY gives a container of its name and icon whose
    items stem from the nodes of the directory, the other nodes give
    nothing. *)
Inductive from_nodes : list TreeItem -> list value -> Prop :=
| from_nodes_nil : from_nodes [] []
| from_nodes_entry (app : AppInfo.t) (rest : list TreeItem)
    (item : value) (items : list value) :
    activation_of item = Some (MainMenu_activate app) ->
    from_nodes rest items ->
    from_nodes (Entry app :: rest) (item :: items)
| from_nodes_directory (directory : TreeDirectory) (gicon : Icon.t)
    (rest : list TreeItem) (subitems items : list value) :
    TreeDirectory_get_icon directory = Some gicon ->
    from_nodes (TreeDirectory_contents directory) subitems ->
    from_nodes rest items ->
    from_nodes (Directory directory :: rest)
      (container (VStr (TreeDirectory_get_name directory))
         (VStr (Icon.to_string gicon)) subitems :: items)
| from_nodes_skip (node : TreeItem) (rest : list TreeItem) (items : list value) :
    pushed node = false ->
    from_nodes rest items ->
    from_nodes (node :: rest) items.

(** Every directory below [dir] has an icon. *)
Fixpoint directories_have_icons (dir : TreeDirectory) : bool :=
  match dir with
  | mkTreeDirectory _ _ contents =>
      forallb
        (fun node =>
           match node with
           | Directory directory =>
               match TreeDirectory_get_icon directory with
               | Some _ => true
               | None => false
               end && directories_have_icons directory
           | _ => true
           end)
        contents
  end.

(** The records with an [activate] function, of a record and of its items at
    any depth. *)
Fixpoint leaves (v : value) : list value :=
  match v with
  | VObj props =>
      (match get_prop "activate" props with
       | VFun _ => [v]
       | _ => []
       end ++
       flat_map
         (fun kv =>
            match kv with
            | (k, VArr elems) =>
                if String.eqb k "items" then flat_map leaves elems else []
            | _ => []
            end)
         props)%list
  | _ => []
  end.

(** ** The strings the host delivers

    [Host_named h] holds when every name, title and icon string which the
    factories read from the host [h] is non-empty. *)

Definition nonempty (s : string) : bool := negb (String.eqb s "").

Definition Icon_named (gicon : Icon.t) : bool := nonempty (Icon.to_string gicon).

Definition AppInfo_named (app : AppInfo.t) : bool :=
  nonempty (AppInfo.get_name app) &&
  match AppInfo.get_icon app with
  | Some gicon => Icon_named gicon
  | None => true
  end.

Definition Window_named (window : Window.t) : bool :=
  nonempty (Window.get_title window).

Definition App_named (app : App.t) : bool :=
  nonempty (App.get_name app) &&
  AppInfo_named (App.get_app_info app) &&
  forallb Window_named (App.get_windows app).

Definition File_named (file : File.t) : bool :=
  nonempty (File.get_basename file) &&
  match File.query_info file "standard::display-name" with
  | Ok info => nonempty (FileInfo.get_display_name info)
  | Throw _ => true
  end &&
  match File.query_info file "standard::icon" with
  | Ok info => Icon_named (FileInfo.get_icon info)
  | Throw _ => true
  end.

Definition RecentInfo_named (recentFile : RecentInfo.t) : bool :=
  nonempty (RecentInfo.get_display_name recentFile) &&
  Icon_named (RecentInfo.get_gicon recentFile).

Fixpoint TreeDirectory_named (dir : TreeDirectory) : bool :=
  match dir with
  | mkTreeDirectory get_name get_icon contents =>
      nonempty get_name &&
      match get_icon with
      | Some gicon => Icon_named gicon
      | None => true
      end &&
      forallb
        (fun node =>
           match node with
           | Entry app => AppInfo_named app
           | Directory directory => TreeDirectory_named directory
           | _ => true
           end)
        contents
  end.

Definition TreeItem_named (node : TreeItem) : bool :=
  match node with
  | Entry app => AppInfo_named app
  | Directory directory => TreeDirectory_named directory
  | _ => true
  end.

Definition Shell_named (h : Host) (shell : Shell.t) : bool :=
  forallb App_named (Shell.AppSystem_get_running shell) &&
  forallb
    (fun appName =>
       match Shell.AppSystem_lookup_app shell appName with
       | Some app => App_named app
       | None => true
       end)
    (global_settings_get_strv h "favorite-apps") &&
  forallb App_named (non_null (Shell.AppUsage_get_most_used shell)).

Definition Host_named (h : Host) : bool :=
  match imports_gi_Shell h with
  | Ok shell => Shell_named h shell
  | Throw _ => true
  end &&
  forallb
    (fun path =>
       match path with
       | Some p => File_named (Gio_File_new_for_path h p)
       | None => true
       end)
    (Bookmarks_paths h) &&
  forallb RecentInfo_named (Gtk_RecentManager_get_items h) &&
  forallb TreeItem_named (TreeDirectory_contents (GMenu_Tree_get_root_directory h)).

(** The [activate] functions of a record and of its items, at any depth. *)
Fixpoint activations (v : value) : list closure :=
  match v with
  | VObj props =>
      flat_map
        (fun kv =>
           match kv with
           | (k, VFun f) => if String.eqb k "activate" then [f] else []
           | (k, VArr elems) =>
               if String.eqb k "items" then flat_map activations elems else []
           | _ => []
           end)
        props
  | _ => []
  end.


(** ** Activations and their handlers *)




(** ** Further vocabulary *)

(** The applications of a menu tree, in the order in which the walk meets
    them. *)
Fixpoint TreeDirectory_entries (dir : TreeDirectory) : list AppInfo.t :=
  match dir with
  | mkTreeDirectory _ _ contents =>
      flat_map
        (fun node =>
           match node with
           | Entry app => [app]
           | Directory directory => TreeDirectory_entries directory
           | _ => []
           end)
        contents
  end.

Definition TreeItem_entries (node : TreeItem) : list AppInfo.t :=
  match node with
  | Entry app => [app]
  | Directory directory => TreeDirectory_entries directory
  | _ => []
  end.

(** [app.get_app_info().get_icon()] is not [null]. *)
Definition has_icon (app : App.t) : bool :=
  match AppInfo.get_icon (App.get_app_info app) with
  | Some _ => true
  | None => false
  end.

(** The host calls of a log, without the notifications. *)
Definition calls (log : list Event) : list Event :=
  filter (fun ev => match ev with Called _ _ => true | _ => false end) log.


(** The format string of the Bookmarks handler. *)
Definition Bookmarks_message : string :=
  "Failed to open " ++ quote ++ "%s" ++ quote ++ ": %s".

(** ** An example desktop *)

Module Example.

(** Every action of the example desktop fails when [fail] is set. *)
Definition outcome (fail : bool) : result unit :=
  if fail then Throw "Error: the host call failed" else Ok tt.

Definition folder : Icon.t := {| Icon.to_string := "folder" |}.

Definition terminal_info (fail : bool) : AppInfo.t :=
  {| AppInfo.get_name := "Terminal";
     AppInfo.get_icon := Some {| Icon.to_string := "utilities-terminal" |};
     AppInfo.launch := outcome fail |}.

Definition calculator_info (fail : bool) : AppInfo.t :=
  {| AppInfo.get_name := "Calculator";
     AppInfo.get_icon := None;
     AppInfo.launch := outcome fail |}.

Definition editor_info (fail : bool) : AppInfo.t :=
  {| AppInfo.get_name := "Text Editor";
     AppInfo.get_icon := Some {| Icon.to_string := "accessories-text-editor" |};
     AppInfo.launch := outcome fail |}.

Definition window (fail : bool) (title : string) : Window.t :=
  {| Window.get_title := title; Window.activate := outcome fail |}.

Definition terminal (fail : bool) : App.t :=
  {| App.get_name := "Terminal";
     App.get_app_info := terminal_info fail;
     App.get_windows := [window fail "user@host: ~"; window fail "user@host: /tmp"];
     App.open_new_window := outcome fail |}.

Definition editor (fail : bool) : App.t :=
  {| App.get_name := "Text Editor";
     App.get_app_info := editor_info fail;
     App.get_windows := [window fail "notes.txt"];
     App.open_new_window := outcome fail |}.

Definition shell (fail : bool) : Shell.t :=
  {| Shell.AppSystem_get_running := [terminal fail; editor fail];
     Shell.AppSystem_lookup_app :=
       fun appName =>
         if String.eqb appName "org.gnome.Terminal.desktop" then Some (terminal fail)
         else if String.eqb appName "org.gnome.gedit.desktop" then Some (editor fail)
         else None;
     Shell.AppUsage_get_most_used := [Some (editor fail); None; Some (terminal fail)] |}.

Fixpoint basename_from (path acc : string) : string :=
  match path with
  | EmptyString => acc
  | String "/" rest => basename_from rest ""
  | String c rest => basename_from rest (acc ++ String c "")
  end.

(** The Templates directory does not exist. *)
Definition file (path : string) : File.t :=
  {| File.query_info :=
       fun attributes =>
         if String.eqb path "/home/user/Templates"
         then Throw "Gio.IOErrorEnum: No such file or directory"
         else Ok {| FileInfo.get_display_name := basename_from path "";
                    FileInfo.get_icon := folder |};
     File.get_basename := basename_from path "";
     File.get_uri := "file://" ++ path |}.

Definition special_dir (dir : UserDirectory.t) : option string :=
  match dir with
  | UserDirectory.DIRECTORY_DESKTOP => Some "/home/user/Desktop"
  | UserDirectory.DIRECTORY_DOCUMENTS => Some "/home/user/Documents"
  | UserDirectory.DIRECTORY_DOWNLOAD => Some "/home/user/Downloads"
  | UserDirectory.DIRECTORY_MUSIC => Some "/home/user/Music"
  | UserDirectory.DIRECTORY_PICTURES => Some "/home/user/Pictures"
  | UserDirectory.DIRECTORY_PUBLIC_SHARE => Some "/home/user/Public"
  | UserDirectory.DIRECTORY_TEMPLATES => Some "/home/user/Templates"
  | UserDirectory.DIRECTORY_VIDEOS => Some "/home/user/Videos"
  end.

(** A desktop on which the Public Share directory is not configured. *)
Definition special_dir_without_public (dir : UserDirectory.t) : option string :=
  match dir with
  | UserDirectory.DIRECTORY_PUBLIC_SHARE => None
  | _ => special_dir dir
  end.

Definition recent (name : string) (present : bool) : RecentInfo.t :=
  {| RecentInfo.exists_ := present;
     RecentInfo.get_display_name := name;
     RecentInfo.get_gicon := {| Icon.to_string := "text-x-generic" |};
     RecentInfo.get_uri := "file:///home/user/Documents/" ++ name |}.

Definition accessories (fail : bool) : TreeDirectory :=
  mkTreeDirectory "Accessories"
    (Some {| Icon.to_string := "applications-accessories" |})
    [Entry (calculator_info fail); Header; Entry (editor_info fail)].

Definition applications (fail : bool) : TreeDirectory :=
  mkTreeDirectory "Applications" (Some {| Icon.to_string := "applications-system" |})
    [Entry (terminal_info fail); Separator; Directory (accessories fail); Alias].

(** A menu tree with a directory which has no icon, between two
    applications. *)
Definition applications_with_plain_directory : TreeDirectory :=
  mkTreeDirectory "Applications" (Some {| Icon.to_string := "applications-system" |})
    [Entry (terminal_info false);
     Directory (mkTreeDirectory "Other" None [Entry (calculator_info false)]);
     Entry (editor_info false)].

Definition favorites (key : string) : list string :=
  if String.eqb key "favorite-apps"
  then ["org.gnome.Terminal.desktop"; "uninstalled.desktop";
        "org.gnome.gedit.desktop"]
  else [].

(** The example desktop, given the outcome of the import of Shell, of the
    loading of the menu tree and of the creation of a launch context, the
    special directories and the menu tree. *)
Definition build (fail : bool) (import_Shell : result Shell.t)
  (load_sync context : result unit)
  (special : UserDirectory.t -> option string) (root : TreeDirectory) : Host :=
  {| imports_gi_Shell := import_Shell;
     new_InputManipulator :=
       Ok {| InputManipulator.activateAccelerator := fun hotkey => outcome fail |};
     module_this := Some [];
     coerce_to_string := fun v => "[object Object]";
     coerce_to_integer := fun v => 0;
     GLib_get_home_dir := "/home/user";
     GLib_get_user_special_dir := special;
     Gio_File_new_for_path := file;
     Gio_AppInfo_create_from_commandline :=
       fun command => Ok (terminal_info fail);
     Gio_AppInfo_launch_default_for_uri := fun uri => outcome fail;
     Gtk_RecentManager_get_items :=
       [recent "report.odt" true; recent "deleted.txt" false;
        recent "photo.png" true; recent "song.ogg" true];
     GMenu_Tree_load_sync := load_sync;
     GMenu_Tree_get_root_directory := root;
     global_object :=
       {| Global.create_app_launch_context := context;
          Global.settings_get_strv := favorites |} |}.

Definition desktop (fail : bool) : Host :=
  build fail (Ok (shell fail)) (Ok tt) (Ok tt) special_dir (applications fail).

Definition host (import_Shell : result Shell.t) (load_sync context : result unit)
  : Host :=
  build false import_Shell load_sync context special_dir (applications false).

(** The preferences dialog: Shell cannot be imported. *)
Definition settings : Host :=
  host (Throw "Error: Requiring Shell, version none: Typelib file not found")
    (Ok tt) (Ok tt).

Definition without_menu : Host :=
  host (Ok (shell false)) (Throw "GLib.Error: Failed to look up menu file")
    (Ok tt).


Definition without_public_share : Host :=
  build false (Ok (shell false)) (Ok tt) (Ok tt) special_dir_without_public
    (applications false).

Definition with_plain_directory : Host :=
  build false (Ok (shell false)) (Ok tt) (Ok tt) special_dir
    applications_with_plain_directory.

End Example.


(** * Properties *)

Unset Implicit Arguments.

(** ** Pushing into a submenu *)

Lemma items_push_container (name icon : value) (l : list value) (item : value) :
  items_push (container name icon l) item = Ok (container name icon (l ++ [item])%list).
Proof. reflexivity. Qed.

Lemma items_of_container (name icon : value) (l : list value) :
  items_of (container name icon l) = l.
Proof. reflexivity. Qed.

Lemma activation_of_leaf (name icon : value) (f : closure) :
  activation_of (leaf name icon f) = Some f.
Proof. reflexivity. Qed.

Lemma Ok_inj {A} (a b : A) : Ok a = Ok b -> a = b.
Proof. congruence. Qed.

Lemma bind_Ok_inv {A B} (m : result A) (k : A -> result B) (b : B) :
  bind m k = Ok b -> exists a, m = Ok a /\ k a = Ok b.
Proof.
  destruct m as [a|e]; simpl; intros H.
  - exists a. split; [reflexivity | exact H].
  - discriminate H.
Qed.

Section Loops.
Variable A : Type.
Variables name icon : value.
Variable g : A -> result (list value).
Variable body : value -> A -> result value.

(** The body appends [g x] to the items of the submenu, or throws as [g x]
    does. *)
Hypothesis body_appends :
  forall l x,
    body (container name icon l) x =
    (let? ys := g x in Ok (container name icon (l ++ ys)%list)).

Lemma forEach_collect (entries : list A) :
  forall l,
    forEach entries body (container name icon l) =
    (let? ys := collect g entries in Ok (container name icon (l ++ ys)%list)).
Proof.
  induction entries as [|x rest IH]; intros l; simpl.
  - now rewrite app_nil_r.
  - rewrite body_appends.
    destruct (g x) as [ys|e]; simpl; [|reflexivity].
    rewrite IH.
    destruct (collect g rest) as [zs|e]; simpl; [|reflexivity].
    now rewrite app_assoc.
Qed.
End Loops.

Lemma flat_map_unit {A B} (f : A -> B) (l : list A) :
  flat_map (fun x => [f x]) l = map f l.
Proof.
  induction l as [|x rest IH]; simpl; [reflexivity|].
  now rewrite IH.
Qed.

Lemma collect_total {A} (f : A -> list value) (entries : list A) :
  collect (fun x => Ok (f x)) entries = Ok (flat_map f entries).
Proof.
  induction entries as [|x rest IH]; simpl; [reflexivity|].
  now rewrite IH.
Qed.

Lemma collect_Forall {A} (P : value -> Prop) (g : A -> result (list value)) :
  (forall x ys, g x = Ok ys -> Forall P ys) ->
  forall entries items, collect g entries = Ok items -> Forall P items.
Proof.
  intros Hg entries.
  induction entries as [|x rest IH]; simpl; intros items H.
  - injection H as <-. constructor.
  - apply bind_Ok_inv in H as (ys & Hys & H).
    apply bind_Ok_inv in H as (zs & Hzs & H).
    injection H as <-.
    apply Forall_app. split; [eapply Hg; eassumption | now apply IH].
Qed.

(** ** What each factory returns *)

Lemma pushFile_eq (name icon : value) (l : list value) (file : File.t) :
  pushFile (container name icon l) file =
  Ok (container name icon (l ++ [Bookmarks_item file])%list).
Proof.
  unfold pushFile, Bookmarks_item.
  destruct (File.query_info file "standard::display-name");
    destruct (File.query_info file "standard::icon"); reflexivity.
Qed.

Lemma collect_map {A B} (g : B -> result (list value)) (f : A -> B) (l : list A) :
  collect g (map f l) = collect (fun x => g (f x)) l.
Proof.
  induction l as [|x rest IH]; simpl; [reflexivity|]. now rewrite IH.
Qed.

Lemma Bookmarks_createItem_eq (h : Host) (args : list value) :
  Bookmarks_createItem h args =
  (let? items := collect (Bookmarks_items h) (Bookmarks_paths h) in
   Ok (container (arg 0 args) (arg 1 args) items)).
Proof.
  unfold Bookmarks_createItem, Bookmarks_paths.
  change (VObj [("name", arg 0 args); ("icon", arg 1 args); ("items", VArr [])])
    with (container (arg 0 args) (arg 1 args) []).
  cbn [File_new_for_path bind]. rewrite pushFile_eq. cbn [bind app].
  rewrite forEach_collect
    with (g := fun dir => Bookmarks_items h (GLib_get_user_special_dir h dir)).
  - cbn [collect]. rewrite collect_map.
    unfold Bookmarks_items at 2. cbn [File_new_for_path bind].
    destruct (collect (fun x => Bookmarks_items h (GLib_get_user_special_dir h x))
                DEFAULT_DIRECTORIES); reflexivity.
  - intros l dir. unfold Bookmarks_items.
    destruct (File_new_for_path h (GLib_get_user_special_dir h dir)) as [file|e];
      [|reflexivity].
    cbn [bind]. now rewrite pushFile_eq.
Qed.

Lemma RunningApps_createItem_eq (h : Host) (args : list value) :
  RunningApps_createItem h args =
  (let? shell := deref "Shell" (Shell (load h)) in
   let? items := collect RunningApps_items (Shell.AppSystem_get_running shell) in
   Ok (container (arg 0 args) (arg 1 args) items)).
Proof.
  unfold RunningApps_createItem.
  destruct (deref "Shell" (Shell (load h))) as [shell|e]; [|reflexivity].
  cbn [bind].
  change (VObj [("name", arg 0 args); ("icon", arg 1 args); ("items", VArr [])])
    with (container (arg 0 args) (arg 1 args) []).
  rewrite forEach_collect with (g := RunningApps_items); [reflexivity|].
  intros l app. unfold RunningApps_items.
  destruct (deref "get_icon()" (AppInfo.get_icon (App.get_app_info app)))
    as [gicon|e]; [|reflexivity].
  cbn [bind].
  rewrite forEach_collect
    with (g := fun window =>
                 Ok [leaf (VStr (Window.get_title window)) (VStr (Icon.to_string gicon))
                       (RunningApps_activate window)]).
  - rewrite collect_total. cbn [bind].
    now rewrite flat_map_unit.
  - intros l' window. reflexivity.
Qed.

Lemma RecentFiles_createItem_eq (h : Host) (args : list value) :
  RecentFiles_createItem h args =
  Ok (container (arg 0 args) (arg 1 args)
        (map RecentFiles_item
           (filter RecentInfo.exists_
              (slice0 h (Gtk_RecentManager_get_items h) (arg 2 args))))).
Proof.
  unfold RecentFiles_createItem.
  change (VObj [("name", arg 0 args); ("icon", arg 1 args); ("items", VArr [])])
    with (container (arg 0 args) (arg 1 args) []).
  rewrite forEach_collect with (g := RecentFiles_items).
  - unfold RecentFiles_items. rewrite collect_total. cbn [bind app].
    do 2 f_equal.
    induction (slice0 h (Gtk_RecentManager_get_items h) (arg 2 args))
      as [|recentFile rest IH]; simpl; [reflexivity|].
    destruct (RecentInfo.exists_ recentFile); simpl; now rewrite IH.
  - intros l recentFile. unfold RecentFiles_items.
    destruct (RecentInfo.exists_ recentFile); [reflexivity|].
    simpl. now rewrite app_nil_r.
Qed.

Lemma FrequentlyUsed_createItem_eq (h : Host) (args : list value) :
  FrequentlyUsed_createItem h args =
  (let? shell := deref "Shell" (Shell (load h)) in
   let? items :=
     collect (App_items FrequentlyUsed_activate)
       (slice0 h (Shell.AppUsage_get_most_used shell) (arg 2 args)) in
   Ok (container (arg 0 args) (arg 1 args) items)).
Proof.
  unfold FrequentlyUsed_createItem.
  destruct (deref "Shell" (Shell (load h))) as [shell|e]; [|reflexivity].
  cbn [bind].
  change (VObj [("name", arg 0 args); ("icon", arg 1 args); ("items", VArr [])])
    with (container (arg 0 args) (arg 1 args) []).
  rewrite forEach_collect with (g := App_items FrequentlyUsed_activate);
    [reflexivity|].
  intros l [app|]; simpl.
  - destruct (deref "get_icon()" (AppInfo.get_icon (App.get_app_info app)));
      reflexivity.
  - now rewrite app_nil_r.
Qed.

Lemma Favorites_createItem_eq (h : Host) (args : list value) :
  Favorites_createItem h args =
  (let? g := global h in
   let? items :=
     collect (Favorites_items h) (global_settings_get_strv h "favorite-apps") in
   Ok (container (arg 0 args) (arg 1 args) items)).
Proof.
  unfold Favorites_createItem, global_settings_get_strv, global.
  destruct (imports_gi_Shell h) as [sh|e]; [|reflexivity].
  cbn [bind].
  change (VObj [("name", arg 0 args); ("icon", arg 1 args); ("items", VArr [])])
    with (container (arg 0 args) (arg 1 args) []).
  rewrite forEach_collect with (g := Favorites_items h); [reflexivity|].
  intros l appName. unfold Favorites_items.
  destruct (deref "Shell" (Shell (load h))) as [shell|e]; [|reflexivity].
  cbn [bind].
  destruct (Shell.AppSystem_lookup_app shell appName) as [app|]; simpl.
  - destruct (deref "get_icon()" (AppInfo.get_icon (App.get_app_info app)));
      reflexivity.
  - now rewrite app_nil_r.
Qed.

Lemma global_with_Shell (h : Host) (shell : Shell.t) :
  Shell (load h) = Some shell -> global h = Ok (global_object h).
Proof.
  unfold load, global. destruct (imports_gi_Shell h) as [sh|e]; [reflexivity|].
  discriminate.
Qed.

Lemma TreeDirectory_items_eq (dir : TreeDirectory) :
  TreeDirectory_items dir = collect TreeItem_items (TreeDirectory_contents dir).
Proof.
  destruct dir as [get_name get_icon contents].
  cbn [TreeDirectory_items TreeDirectory_contents].
  induction contents as [|node rest IH]; [reflexivity|].
  cbn [collect]. rewrite <- IH. destruct node; reflexivity.
Qed.

(** The menu walk appends to the submenu what the three-way switch
    prescribes for the nodes of the directory, in order, and throws where the
    switch throws. *)
Lemma pushMenuItems_eq :
  forall (dir : TreeDirectory) (name icon : value) (l : list value),
    pushMenuItems (container name icon l) dir =
    (let? added := TreeDirectory_items dir in
     Ok (container name icon (l ++ added)%list)).
Proof.
  fix IH 1.
  intros [dname dicon contents] name icon l.
  cbn [pushMenuItems TreeDirectory_items].
  revert l.
  induction contents as [|node rest IHrest]; intros l.
  - simpl. now rewrite app_nil_r.
  - destruct node as [app|directory| | |].
    + cbn [bind]. rewrite items_push_container. cbn [bind].
      rewrite IHrest.
      match goal with
      | |- context [bind ?walk _] => destruct walk as [zs|e]
      end; cbn [bind List.app]; [|reflexivity].
      now rewrite <- app_assoc.
    + destruct directory as [get_name get_icon subcontents] eqn:Hdirectory.
      cbn [TreeDirectory_get_icon TreeDirectory_get_name].
      destruct get_icon as [gicon|]; cbn [deref bind]; [|reflexivity].
      rewrite <- Hdirectory.
      change (VObj [("name", VStr get_name); ("icon", VStr (Icon.to_string gicon));
                    ("items", VArr [])])
        with (container (VStr get_name) (VStr (Icon.to_string gicon)) []).
      rewrite (IH directory).
      destruct (TreeDirectory_items directory) as [items|e]; cbn [bind List.app];
        [|reflexivity].
      rewrite items_push_container. cbn [bind].
      rewrite IHrest.
      match goal with
      | |- context [bind ?walk _] => destruct walk as [zs|e]
      end; cbn [bind List.app]; [|reflexivity].
      now rewrite <- app_assoc.
    + cbn [bind List.app]. rewrite IHrest.
      match goal with
      | |- context [bind ?walk _] => destruct walk as [zs|e]
      end; reflexivity.
    + cbn [bind List.app]. rewrite IHrest.
      match goal with
      | |- context [bind ?walk _] => destruct walk as [zs|e]
      end; reflexivity.
    + cbn [bind List.app]. rewrite IHrest.
      match goal with
      | |- context [bind ?walk _] => destruct walk as [zs|e]
      end; reflexivity.
Qed.

Lemma MainMenu_createItem_eq (h : Host) (args : list value) :
  MainMenu_createItem h args =
  (let? _ := GMenu_Tree_load_sync h in
   let? items := TreeDirectory_items (GMenu_Tree_get_root_directory h) in
   Ok (container (arg 0 args) (arg 1 args) items)).
Proof.
  unfold MainMenu_createItem.
  destruct (GMenu_Tree_load_sync h); [|reflexivity].
  cbn [bind].
  change (VObj [("name", arg 0 args); ("icon", arg 1 args); ("items", VArr [])])
    with (container (arg 0 args) (arg 1 args) []).
  now rewrite pushMenuItems_eq.
Qed.

(** ** Induction over menu trees *)

Lemma TreeDirectory_induction (P : TreeDirectory -> Prop) :
  (forall get_name get_icon contents,
      Forall (fun node => match node with Directory d => P d | _ => True end) contents ->
      P (mkTreeDirectory get_name get_icon contents)) ->
  forall dir, P dir.
Proof.
  intros step.
  fix IH 1.
  intros [get_name get_icon contents].
  apply step.
  induction contents as [|node rest IHrest]; constructor.
  - destruct node; try exact I. apply IH.
  - exact IHrest.
Qed.

(** A property of the items of a menu tree which holds of the items of
    entries and passes from the items of a directory to its container. *)
Lemma TreeDirectory_items_Forall (P : value -> Prop) :
  (forall app, P (MainMenu_entry_item app)) ->
  (forall name icon items, Forall P items -> P (container (VStr name) (VStr icon) items)) ->
  forall dir items, TreeDirectory_items dir = Ok items -> Forall P items.
Proof.
  intros Hentry Hcontainer dir.
  induction dir as [get_name get_icon contents IH] using TreeDirectory_induction.
  intros items H. rewrite TreeDirectory_items_eq in H.
  cbn [TreeDirectory_contents] in H. revert items H.
  induction IH as [|node rest Hnode _ IHrest]; intros items H; cbn [collect] in H.
  - apply Ok_inj in H. subst items. constructor.
  - apply bind_Ok_inv in H as (ys & Hys & H).
    apply bind_Ok_inv in H as (zs & Hzs & H). apply Ok_inj in H. subst items.
    apply Forall_app. split; [|now apply IHrest].
    destruct node as [app|directory| | |]; cbn [TreeItem_items] in Hys.
    + apply Ok_inj in Hys. subst ys. constructor; [apply Hentry | constructor].
    + apply bind_Ok_inv in Hys as (gicon & _ & Hys).
      apply bind_Ok_inv in Hys as (subitems & Hsub & Hys).
      apply Ok_inj in Hys. subst ys.
      constructor; [|constructor]. apply Hcontainer. now apply Hnode.
    + apply Ok_inj in Hys. subst ys. constructor.
    + apply Ok_inj in Hys. subst ys. constructor.
    + apply Ok_inj in Hys. subst ys. constructor.
Qed.


(** ** The shape of the records (C1) *)

Lemma container_shape (name icon : value) (items : list value) :
  Forall (fun v => is_MenuItem v = true) items ->
  is_MenuItem (container name icon items) = true.
Proof.
  intros H. cbn. apply forallb_forall. now apply Forall_forall.
Qed.

Lemma App_items_shape (activate : App.t -> closure) (app : option App.t)
      (ys : list value) :
  App_items activate app = Ok ys -> Forall (fun v => is_MenuItem v = true) ys.
Proof.
  destruct app as [app|]; simpl; intros H.
  - apply bind_Ok_inv in H as (gicon & _ & H). injection H as <-.
    now repeat constructor.
  - injection H as <-. constructor.
Qed.

Lemma TreeDirectory_items_shape (dir : TreeDirectory) (items : list value) :
  TreeDirectory_items dir = Ok items ->
  Forall (fun v => is_MenuItem v = true) items.
Proof.
  apply TreeDirectory_items_Forall.
  - reflexivity.
  - intros name icon subitems. apply container_shape.
Qed.

Lemma Bookmarks_items_shape (h : Host) (path : option string) (ys : list value) :
  Bookmarks_items h path = Ok ys -> Forall (fun v => is_MenuItem v = true) ys.
Proof.
  unfold Bookmarks_items. intros H.
  apply bind_Ok_inv in H as (file & _ & H). apply Ok_inj in H. subst ys.
  now repeat constructor.
Qed.

(** C1. For every registered item type and every list of arguments, the
    record which [createItem] returns is a leaf [{name, icon, activate}] or a
    container [{name, icon, items}] whose items have, recursively, one of
    these two shapes; no record has both [activate] and [items]. *)
Theorem createItem_shape (key : string) (ty : ItemType.t) (h : Host)
        (args : list value) (r : value) :
  In (key, ty) ItemTypes ->
  ItemType.createItem ty h args = Ok r ->
  is_MenuItem r = true.
Proof.
  intros Hin H. simpl in Hin.
  repeat (destruct Hin as [Hin|Hin]; [injection Hin as <- <-; cbn [ItemType.createItem] in H|]);
    try contradiction.
  - apply Ok_inj in H. subst r. reflexivity.
  - apply Ok_inj in H. subst r. reflexivity.
  - apply Ok_inj in H. subst r. reflexivity.
  - apply Ok_inj in H. subst r. reflexivity.
  - rewrite Bookmarks_createItem_eq in H.
    apply bind_Ok_inv in H as (items & Hitems & H). injection H as <-.
    apply container_shape.
    eapply collect_Forall; [|exact Hitems]. apply Bookmarks_items_shape.
  - rewrite RunningApps_createItem_eq in H.
    apply bind_Ok_inv in H as (shell & _ & H).
    apply bind_Ok_inv in H as (items & Hitems & H). injection H as <-.
    apply container_shape.
    eapply collect_Forall; [|exact Hitems].
    intros app ys Hys. unfold RunningApps_items in Hys.
    apply bind_Ok_inv in Hys as (gicon & _ & Hys). injection Hys as <-.
    apply Forall_forall. intros item Hitem.
    apply in_map_iff in Hitem as (window & <- & _). reflexivity.
  - rewrite RecentFiles_createItem_eq in H. injection H as <-.
    apply container_shape, Forall_forall. intros item Hitem.
    apply in_map_iff in Hitem as (recentFile & <- & _). reflexivity.
  - rewrite FrequentlyUsed_createItem_eq in H.
    apply bind_Ok_inv in H as (shell & _ & H).
    apply bind_Ok_inv in H as (items & Hitems & H). injection H as <-.
    apply container_shape.
    eapply collect_Forall; [|exact Hitems].
    intros app ys. apply App_items_shape.
  - rewrite Favorites_createItem_eq in H.
    apply bind_Ok_inv in H as (g & _ & H).
    apply bind_Ok_inv in H as (items & Hitems & H). injection H as <-.
    apply container_shape.
    eapply collect_Forall; [|exact Hitems].
    intros appName ys Hys. unfold Favorites_items in Hys.
    apply bind_Ok_inv in Hys as (shell & _ & Hys).
    eapply App_items_shape; exact Hys.
  - rewrite MainMenu_createItem_eq in H.
    apply bind_Ok_inv in H as (u & _ & H).
    apply bind_Ok_inv in H as (items & Hitems & H). injection H as <-.
    apply container_shape. eapply TreeDirectory_items_shape. exact Hitems.
Qed.

Lemma createItem_shape_witness :
  exists r,
    MainMenu_createItem (Example.desktop false)
      [VStr "Main Menu"; VStr "applications-system"] = Ok r /\
    is_MenuItem r = true.
Proof.
  eexists. split; [reflexivity|].
  apply (createItem_shape "MainMenu"
           {| ItemType.name := "Main Menu";
              ItemType.icon := "applications-system";
              ItemType.description :=
                "Shows all installed applications." ++ newline ++
                "Usually, this is very cluttered;" ++ newline ++
                "you should rather setup your own menus!";
              ItemType.settingsType := SettingsTypes_ "NONE";
              ItemType.settingsList := "submenu-types-list";
              ItemType.createItem := MainMenu_createItem |}
           (Example.desktop false)
           [VStr "Main Menu"; VStr "applications-system"]).
  - simpl. do 9 right. left. reflexivity.
  - reflexivity.
Defined.

(** ** The registry table (C7) *)

(** C7. The registry is a static table with the ten entries Hotkey, Command,
    Url, File, Bookmarks, RunningApps, RecentFiles, FrequentlyUsed, Favorites
    and MainMenu.  Every entry carries a non-empty name string, an icon
    string, a description string, a settings list string and a [createItem]
    function (the fields of [ItemType.t]), and its settings type is one of
    the values of [SettingsTypes]. *)
Theorem ItemTypes_descriptors :
  map fst ItemTypes =
    ["Hotkey"; "Command"; "Url"; "File"; "Bookmarks"; "RunningApps"; "RecentFiles";
     "FrequentlyUsed"; "Favorites"; "MainMenu"] /\
  Forall
    (fun entry =>
       exists name icon description settingsType settingsList createItem,
         snd entry =
           {| ItemType.name := name; ItemType.icon := icon;
              ItemType.description := description;
              ItemType.settingsType := settingsType;
              ItemType.settingsList := settingsList;
              ItemType.createItem := createItem |} /\
         name <> "" /\
         In settingsType (map snd SettingsTypes))
    ItemTypes.
Proof.
  split; [reflexivity|].
  unfold ItemTypes.
  repeat (constructor;
          [do 6 eexists; split; [reflexivity|];
           split; [discriminate | cbn; tauto]|]).
  constructor.
Qed.

(** ** The menu walk (C5) *)

Lemma collect_throws {A} (g : A -> result (list value)) (entries : list A) (x : A) :
  In x entries -> (exists e, g x = Throw e) -> exists e, collect g entries = Throw e.
Proof.
  intros Hin (e & Hx).
  induction entries as [|y rest IH]; [contradiction|].
  cbn [collect]. destruct Hin as [->|Hin].
  - rewrite Hx. now eexists.
  - destruct (g y) as [ys|e']; cbn [bind]; [|now eexists].
    destruct (IH Hin) as (e' & ->). now eexists.
Qed.

(** C5. The claim has every node of type DIRECTORY contribute one container.
    The walk does not do so for a directory without icon: the DIRECTORY case
    reads [directory.get_icon().to_string()] without the test against [null]
    which the ENTRY case makes, so the walk throws, the directory contributes
    nothing and the record is never returned. *)
Theorem pushMenuItems_directory_without_icon (dir directory : TreeDirectory)
        (name icon : value) (l : list value) :
  In (Directory directory) (TreeDirectory_contents dir) ->
  TreeDirectory_get_icon directory = None ->
  exists e, pushMenuItems (container name icon l) dir = Throw e.
Proof.
  intros Hin Hicon. rewrite pushMenuItems_eq, TreeDirectory_items_eq.
  destruct (collect_throws TreeItem_items (TreeDirectory_contents dir)
              (Directory directory) Hin) as (e & ->).
  - cbn [TreeItem_items]. rewrite Hicon. cbn. now eexists.
  - cbn. now eexists.
Qed.

Lemma pushMenuItems_directory_without_icon_witness :
  (exists e,
      pushMenuItems (container (VStr "Main Menu") (VStr "applications-system") [])
        Example.applications_with_plain_directory = Throw e) /\
  MainMenu_createItem Example.with_plain_directory
    [VStr "Main Menu"; VStr "applications-system"] =
    Throw (TypeError "get_icon() is undefined").
Proof.
  split; [|reflexivity].
  apply (pushMenuItems_directory_without_icon
           Example.applications_with_plain_directory
           (mkTreeDirectory "Other" None [Entry (Example.calculator_info false)])).
  - simpl. right. left. reflexivity.
  - reflexivity.
Defined.

(** ** Bookmarks (C8) *)

(** C8, as stated, fails: a default directory which is not configured has no
    path, the file constructor refuses the missing path, and
    Bookmarks.createItem throws instead of returning nine items. *)
Lemma Bookmarks_may_throw :
  ~ (forall h args,
        exists items,
          Bookmarks_createItem h args = Ok (container (arg 0 args) (arg 1 args) items) /\
          List.length items = 9%nat).
Proof.
  intros claim.
  destruct (claim Example.without_public_share [VStr "Bookmarks"; VStr "folder"])
    as (items & Hreturns & _).
  discriminate Hreturns.
Qed.

(** C8, amended.  Whenever GLib reports a path for each of the eight default
    user directories, Bookmarks.createItem returns a submenu with exactly
    nine items: the home directory first, then Desktop, Documents, Download,
    Music, Pictures, Templates, Public Share and Videos, in this order.
    Whether the directory exists (whether its metadata can be queried) plays
    no role: an item is pushed for each of the nine paths. *)
Theorem Bookmarks_nine_items (h : Host) (args : list value) :
  (forall dir, In dir DEFAULT_DIRECTORIES -> GLib_get_user_special_dir h dir <> None) ->
  exists paths items,
    map Some paths =
      [Some (GLib_get_home_dir h);
       GLib_get_user_special_dir h UserDirectory.DIRECTORY_DESKTOP;
       GLib_get_user_special_dir h UserDirectory.DIRECTORY_DOCUMENTS;
       GLib_get_user_special_dir h UserDirectory.DIRECTORY_DOWNLOAD;
       GLib_get_user_special_dir h UserDirectory.DIRECTORY_MUSIC;
       GLib_get_user_special_dir h UserDirectory.DIRECTORY_PICTURES;
       GLib_get_user_special_dir h UserDirectory.DIRECTORY_TEMPLATES;
       GLib_get_user_special_dir h UserDirectory.DIRECTORY_PUBLIC_SHARE;
       GLib_get_user_special_dir h UserDirectory.DIRECTORY_VIDEOS] /\
    Bookmarks_createItem h args = Ok (container (arg 0 args) (arg 1 args) items) /\
    List.length items = 9%nat /\
    map activation_of items =
      map (fun path => Some (Bookmarks_activate (Gio_File_new_for_path h path))) paths.
Proof.
  intros Hconfigured.
  rewrite Bookmarks_createItem_eq.
  unfold Bookmarks_paths, DEFAULT_DIRECTORIES in *. cbn [map].
  destruct (GLib_get_user_special_dir h UserDirectory.DIRECTORY_DESKTOP) as [p1|] eqn:H1;
    [|exfalso; apply (Hconfigured UserDirectory.DIRECTORY_DESKTOP); [simpl; tauto | exact H1]].
  destruct (GLib_get_user_special_dir h UserDirectory.DIRECTORY_DOCUMENTS) as [p2|] eqn:H2;
    [|exfalso; apply (Hconfigured UserDirectory.DIRECTORY_DOCUMENTS); [simpl; tauto | exact H2]].
  destruct (GLib_get_user_special_dir h UserDirectory.DIRECTORY_DOWNLOAD) as [p3|] eqn:H3;
    [|exfalso; apply (Hconfigured UserDirectory.DIRECTORY_DOWNLOAD); [simpl; tauto | exact H3]].
  destruct (GLib_get_user_special_dir h UserDirectory.DIRECTORY_MUSIC) as [p4|] eqn:H4;
    [|exfalso; apply (Hconfigured UserDirectory.DIRECTORY_MUSIC); [simpl; tauto | exact H4]].
  destruct (GLib_get_user_special_dir h UserDirectory.DIRECTORY_PICTURES) as [p5|] eqn:H5;
    [|exfalso; apply (Hconfigured UserDirectory.DIRECTORY_PICTURES); [simpl; tauto | exact H5]].
  destruct (GLib_get_user_special_dir h UserDirectory.DIRECTORY_TEMPLATES) as [p6|] eqn:H6;
    [|exfalso; apply (Hconfigured UserDirectory.DIRECTORY_TEMPLATES); [simpl; tauto | exact H6]].
  destruct (GLib_get_user_special_dir h UserDirectory.DIRECTORY_PUBLIC_SHARE) as [p7|] eqn:H7;
    [|exfalso; apply (Hconfigured UserDirectory.DIRECTORY_PUBLIC_SHARE); [simpl; tauto | exact H7]].
  destruct (GLib_get_user_special_dir h UserDirectory.DIRECTORY_VIDEOS) as [p8|] eqn:H8;
    [|exfalso; apply (Hconfigured UserDirectory.DIRECTORY_VIDEOS); [simpl; tauto | exact H8]].
  exists [GLib_get_home_dir h; p1; p2; p3; p4; p5; p6; p7; p8].
  eexists. split; [reflexivity|]. split; [reflexivity|]. split; reflexivity.
Qed.

Lemma Bookmarks_nine_items_witness :
  exists items,
    Bookmarks_createItem (Example.desktop false) [VStr "Bookmarks"; VStr "folder"] =
      Ok (container (VStr "Bookmarks") (VStr "folder") items) /\
    List.length items = 9%nat.
Proof.
  destruct (Bookmarks_nine_items (Example.desktop false)
              [VStr "Bookmarks"; VStr "folder"])
    as (paths & items & _ & Hreturns & Hlength & _).
  - intros dir _. destruct dir; discriminate.
  - exists items. split; [exact Hreturns | exact Hlength].
Defined.

(** ** Slices (C4) *)

Lemma slice0_nonneg {A} (h : Host) (array : list A) (n : Z) :
  0 <= n -> slice0 h array (VNum n) = firstn (Z.to_nat n) array.
Proof.
  intros Hn. unfold slice0. cbn [ToIntegerOrInfinity].
  destruct (Z.ltb_spec n 0) as [Hneg|_]; [lia|].
  destruct (Z.le_gt_cases n (Z.of_nat (List.length array))) as [Hle|Hgt].
  - now rewrite Z.min_l.
  - rewrite Z.min_r, Nat2Z.id by lia.
    rewrite firstn_all. symmetry. apply firstn_all2. lia.
Qed.

Lemma slice0_length {A} (h : Host) (array : list A) (n : Z) :
  0 <= n -> (Z.of_nat (List.length (slice0 h array (VNum n))) <= n)%Z.
Proof.
  intros Hn. rewrite slice0_nonneg by assumption.
  rewrite length_firstn. lia.
Qed.

Lemma collect_length {A} (g : A -> result (list value)) :
  (forall x ys, g x = Ok ys -> (List.length ys <= 1)%nat) ->
  forall entries items,
    collect g entries = Ok items -> (List.length items <= List.length entries)%nat.
Proof.
  intros Hg entries.
  induction entries as [|x rest IH]; simpl; intros items H.
  - injection H as <-. simpl. lia.
  - apply bind_Ok_inv in H as (ys & Hys & H).
    apply bind_Ok_inv in H as (zs & Hzs & H).
    injection H as <-. rewrite length_app.
    specialize (Hg _ _ Hys). specialize (IH _ Hzs). lia.
Qed.

Lemma App_items_length (activate : App.t -> closure) (app : option App.t)
      (ys : list value) :
  App_items activate app = Ok ys -> (List.length ys <= 1)%nat.
Proof.
  destruct app as [app|]; simpl; intros H.
  - apply bind_Ok_inv in H as (gicon & _ & H). injection H as <-. simpl. lia.
  - injection H as <-. simpl. lia.
Qed.

(** C4. For every non-negative [maxNum], the submenus of RecentFiles and of
    FrequentlyUsed have at most [maxNum] items: both factories take the
    prefix [slice(0, maxNum)] of the list the host returns before they map
    its entries to records. *)
Theorem maxNum_bounds_submenu (h : Host) (name icon : value) (maxNum : Z) :
  0 <= maxNum ->
  (exists items,
      RecentFiles_createItem h [name; icon; VNum maxNum] =
        Ok (container name icon items) /\
      items =
        map RecentFiles_item
          (filter RecentInfo.exists_
             (firstn (Z.to_nat maxNum) (Gtk_RecentManager_get_items h))) /\
      Z.of_nat (List.length items) <= maxNum) /\
  (forall r,
      FrequentlyUsed_createItem h [name; icon; VNum maxNum] = Ok r ->
      exists shell items,
        Shell (load h) = Some shell /\
        r = container name icon items /\
        collect (App_items FrequentlyUsed_activate)
          (firstn (Z.to_nat maxNum) (Shell.AppUsage_get_most_used shell)) = Ok items /\
        Z.of_nat (List.length items) <= maxNum).
Proof.
  intros Hn. split.
  - eexists. split; [apply RecentFiles_createItem_eq|].
    cbn [arg nth]. rewrite slice0_nonneg by assumption.
    split; [reflexivity|].
    rewrite length_map.
    pose proof (filter_length_le RecentInfo.exists_
                  (firstn (Z.to_nat maxNum) (Gtk_RecentManager_get_items h))) as Hf.
    rewrite length_firstn in Hf. lia.
  - intros r H. rewrite FrequentlyUsed_createItem_eq in H.
    apply bind_Ok_inv in H as (shell & Hshell & H).
    apply bind_Ok_inv in H as (items & Hitems & H). injection H as <-.
    cbn [arg nth] in Hitems. rewrite slice0_nonneg in Hitems by assumption.
    exists shell, items.
    split; [destruct (Shell (load h)); [now injection Hshell as -> | discriminate]|].
    split; [reflexivity|]. split; [exact Hitems|].
    apply collect_length in Hitems; [|apply App_items_length].
    rewrite length_firstn in Hitems. lia.
Qed.

Lemma maxNum_bounds_submenu_witness :
  (exists items,
      RecentFiles_createItem (Example.desktop false)
        [VStr "Recent Files"; VStr "document-open-recent"; VNum 3] =
        Ok (container (VStr "Recent Files") (VStr "document-open-recent") items) /\
      items =
        map RecentFiles_item
          (filter RecentInfo.exists_
             (firstn (Z.to_nat 3)
                (Gtk_RecentManager_get_items (Example.desktop false)))) /\
      Z.of_nat (List.length items) <= 3) /\
  (forall r,
      FrequentlyUsed_createItem (Example.desktop false)
        [VStr "Recent Files"; VStr "document-open-recent"; VNum 3] = Ok r ->
      exists shell items,
        Shell (load (Example.desktop false)) = Some shell /\
        r = container (VStr "Recent Files") (VStr "document-open-recent") items /\
        collect (App_items FrequentlyUsed_activate)
          (firstn (Z.to_nat 3) (Shell.AppUsage_get_most_used shell)) = Ok items /\
        Z.of_nat (List.length items) <= 3).
Proof.
  apply (maxNum_bounds_submenu (Example.desktop false)
           (VStr "Recent Files") (VStr "document-open-recent") 3).
  lia.
Defined.

(** ** Order of the items (C6) *)

Lemma collect_Forall2 {A B} (R : B -> value -> Prop)
      (g : A -> result (list value)) (keep : A -> list B) :
  (forall x ys, g x = Ok ys -> Forall2 R (keep x) ys) ->
  forall entries items,
    collect g entries = Ok items -> Forall2 R (flat_map keep entries) items.
Proof.
  intros Hg entries.
  induction entries as [|x rest IH]; simpl; intros items H.
  - injection H as <-. constructor.
  - apply bind_Ok_inv in H as (ys & Hys & H).
    apply bind_Ok_inv in H as (zs & Hzs & H).
    injection H as <-.
    apply Forall2_app; [now apply Hg | now apply IH].
Qed.

Lemma Forall2_map_r {A B} (R : A -> B -> Prop) (f : A -> B) (l : list A) :
  (forall x, R x (f x)) -> Forall2 R l (map f l).
Proof.
  intros Hf. induction l as [|x rest IH]; simpl; constructor; auto.
Qed.

Lemma Shell_binding (h : Host) (shell : Shell.t) :
  deref "Shell" (Shell (load h)) = Ok shell <-> Shell (load h) = Some shell.
Proof.
  destruct (Shell (load h)) as [sh|]; simpl; split; intros H;
    try discriminate; now injection H as ->.
Qed.

Lemma App_items_origin (activate : App.t -> closure) (app : option App.t)
      (ys : list value) :
  App_items activate app = Ok ys ->
  Forall2 (fun a item => activation_of item = Some (activate a))
    (match app with Some a => [a] | None => [] end) ys.
Proof.
  destruct app as [app|]; simpl; intros H.
  - apply bind_Ok_inv in H as (gicon & _ & H). injection H as <-.
    now repeat constructor.
  - injection H as <-. constructor.
Qed.

Lemma RunningApps_items_origin (app : App.t) (ys : list value) :
  RunningApps_items app = Ok ys ->
  Forall2 (fun window item => activation_of item = Some (RunningApps_activate window))
    (App.get_windows app) ys.
Proof.
  unfold RunningApps_items. intros H.
  apply bind_Ok_inv in H as (gicon & _ & H). injection H as <-.
  now apply Forall2_map_r.
Qed.

Lemma TreeDirectory_items_from_nodes (dir : TreeDirectory) :
  forall items,
    TreeDirectory_items dir = Ok items ->
    from_nodes (TreeDirectory_contents dir) items.
Proof.
  induction dir as [get_name get_icon contents IH] using TreeDirectory_induction.
  intros items H. rewrite TreeDirectory_items_eq in H.
  cbn [TreeDirectory_contents] in H |- *. revert items H.
  induction IH as [|node rest Hnode _ IHrest]; intros items H; cbn [collect] in H.
  - apply Ok_inj in H. subst items. constructor.
  - apply bind_Ok_inv in H as (ys & Hys & H).
    apply bind_Ok_inv in H as (zs & Hzs & H). apply Ok_inj in H. subst items.
    specialize (IHrest zs Hzs).
    destruct node as [app|directory| | |]; cbn [TreeItem_items] in Hys.
    + apply Ok_inj in Hys. subst ys. now constructor.
    + destruct (TreeDirectory_get_icon directory) as [gicon|] eqn:Hicon;
        [|discriminate].
      cbn [deref bind] in Hys.
      apply bind_Ok_inv in Hys as (subitems & Hsub & Hys).
      apply Ok_inj in Hys. subst ys.
      apply from_nodes_directory; [exact Hicon | now apply Hnode | exact IHrest].
    + apply Ok_inj in Hys. subst ys. now apply from_nodes_skip.
    + apply Ok_inj in Hys. subst ys. now apply from_nodes_skip.
    + apply Ok_inj in Hys. subst ys. now apply from_nodes_skip.
Qed.

Lemma Bookmarks_items_origin (h : Host) (path : option string) (ys : list value) :
  Bookmarks_items h path = Ok ys ->
  Forall2
    (fun path item =>
       exists p,
         path = Some p /\
         activation_of item = Some (Bookmarks_activate (Gio_File_new_for_path h p)))
    [path] ys.
Proof.
  unfold Bookmarks_items. destruct path as [p|]; cbn; intros H; [|discriminate].
  apply Ok_inj in H. subst ys. constructor; [|constructor].
  exists p. now split.
Qed.

(** C6. The items of every submenu stand in the order in which the host
    returned the entries they stem from (after slicing and filtering): in
    the record a factory returns, the list of items corresponds, position by
    position, to the list of entries which the factory keeps; no entry is
    moved, merged or dropped.  For the main menu this holds at every depth
    of the menu tree. *)
Theorem submenus_keep_host_order (h : Host) (args : list value) :
  (forall r,
      Bookmarks_createItem h args = Ok r ->
      Forall2
        (fun path item =>
           exists p,
             path = Some p /\
             activation_of item =
               Some (Bookmarks_activate (Gio_File_new_for_path h p)))
        (Some (GLib_get_home_dir h)
           :: map (GLib_get_user_special_dir h) DEFAULT_DIRECTORIES)
        (items_of r)) /\
  (forall shell r,
      Shell (load h) = Some shell ->
      RunningApps_createItem h args = Ok r ->
      Forall2
        (fun window item => activation_of item = Some (RunningApps_activate window))
        (flat_map App.get_windows (Shell.AppSystem_get_running shell))
        (items_of r)) /\
  (exists r,
      RecentFiles_createItem h args = Ok r /\
      Forall2
        (fun recentFile item =>
           activation_of item = Some (RecentFiles_activate recentFile))
        (filter RecentInfo.exists_
           (slice0 h (Gtk_RecentManager_get_items h) (arg 2 args)))
        (items_of r)) /\
  (forall shell r,
      Shell (load h) = Some shell ->
      FrequentlyUsed_createItem h args = Ok r ->
      Forall2
        (fun app item => activation_of item = Some (FrequentlyUsed_activate app))
        (non_null (slice0 h (Shell.AppUsage_get_most_used shell) (arg 2 args)))
        (items_of r)) /\
  (forall shell r,
      Shell (load h) = Some shell ->
      Favorites_createItem h args = Ok r ->
      Forall2
        (fun app item => activation_of item = Some (Favorites_activate app))
        (non_null
           (map (Shell.AppSystem_lookup_app shell)
              (global_settings_get_strv h "favorite-apps")))
        (items_of r)) /\
  (forall r,
      MainMenu_createItem h args = Ok r ->
      from_nodes (TreeDirectory_contents (GMenu_Tree_get_root_directory h))
        (items_of r)).
Proof.
  split; [|split; [|split; [|split; [|split]]]].
  - intros r H. rewrite Bookmarks_createItem_eq in H.
    apply bind_Ok_inv in H as (items & Hitems & H). apply Ok_inj in H. subst r.
    rewrite items_of_container.
    apply collect_Forall2
      with (R := fun path item =>
                   exists p,
                     path = Some p /\
                     activation_of item =
                       Some (Bookmarks_activate (Gio_File_new_for_path h p)))
           (keep := fun path : option string => [path])
      in Hitems; [|apply Bookmarks_items_origin].
    rewrite flat_map_unit, map_id in Hitems. exact Hitems.
  - intros shell r Hshell H. rewrite RunningApps_createItem_eq in H.
    apply Shell_binding in Hshell. rewrite Hshell in H. cbn [bind] in H.
    apply bind_Ok_inv in H as (items & Hitems & H). injection H as <-.
    rewrite items_of_container.
    eapply collect_Forall2; [|exact Hitems]. apply RunningApps_items_origin.
  - eexists. split; [apply RecentFiles_createItem_eq|].
    rewrite items_of_container. now apply Forall2_map_r.
  - intros shell r Hshell H. rewrite FrequentlyUsed_createItem_eq in H.
    apply Shell_binding in Hshell. rewrite Hshell in H. cbn [bind] in H.
    apply bind_Ok_inv in H as (items & Hitems & H). injection H as <-.
    rewrite items_of_container.
    eapply collect_Forall2; [|exact Hitems]. apply App_items_origin.
  - intros shell r Hshell H. rewrite Favorites_createItem_eq in H.
    apply bind_Ok_inv in H as (g & _ & H).
    apply bind_Ok_inv in H as (items & Hitems & H). injection H as <-.
    rewrite items_of_container. unfold non_null. rewrite flat_map_concat_map, map_map,
      <- flat_map_concat_map.
    eapply collect_Forall2; [|exact Hitems].
    intros appName ys Hys. unfold Favorites_items in Hys.
    apply Shell_binding in Hshell. rewrite Hshell in Hys. cbn [bind] in Hys.
    now apply App_items_origin.
  - intros r H. rewrite MainMenu_createItem_eq in H.
    apply bind_Ok_inv in H as (u & _ & H).
    apply bind_Ok_inv in H as (items & Hitems & H). apply Ok_inj in H. subst r.
    rewrite items_of_container. now apply TreeDirectory_items_from_nodes.
Qed.

Lemma submenus_keep_host_order_witness :
  exists r,
    FrequentlyUsed_createItem (Example.desktop false)
      [VStr "Frequently Used"; VStr "emblem-favorite"; VNum 3] = Ok r /\
    Forall2
      (fun app item => activation_of item = Some (FrequentlyUsed_activate app))
      [Example.editor false; Example.terminal false]
      (items_of r).
Proof.
  eexists. split; [reflexivity|].
  apply (proj1 (proj2 (proj2 (proj2
           (submenus_keep_host_order (Example.desktop false)
              [VStr "Frequently Used"; VStr "emblem-favorite"; VNum 3]))))
           (Example.shell false)).
  - reflexivity.
  - reflexivity.
Defined.

(** ** Filtering (C9) *)

Lemma collect_non_null_length (activate : App.t -> closure) :
  forall entries items,
    collect (App_items activate) entries = Ok items ->
    List.length items = List.length (non_null entries).
Proof.
  intros entries items H.
  apply collect_Forall2
    with (R := fun a item => activation_of item = Some (activate a))
         (keep := fun x : option App.t => match x with Some a => [a] | None => [] end)
    in H; [|apply App_items_origin].
  symmetry. eapply Forall2_length. exact H.
Qed.

Lemma collect_App_items_returns (activate : App.t -> closure) :
  forall entries,
    Forall (fun app => AppInfo.get_icon (App.get_app_info app) <> None)
      (non_null entries) ->
    exists items, collect (App_items activate) entries = Ok items.
Proof.
  induction entries as [|[app|] rest IH]; simpl; intros H.
  - now eexists.
  - apply Forall_cons_iff in H as [Hicon Hrest].
    destruct (IH Hrest) as (items & ->).
    destruct (AppInfo.get_icon (App.get_app_info app)); [|contradiction].
    simpl. now eexists.
  - destruct (IH H) as (items & ->). simpl. now eexists.
Qed.

Lemma Forall2_In_right {A B} {R : A -> B -> Prop} {l : list A} {l' : list B} {y : B} :
  Forall2 R l l' -> In y l' -> exists x, In x l /\ R x y.
Proof.
  induction 1 as [|x y' l l' Hxy _ IH]; simpl; [contradiction|].
  intros [<-|Hin].
  - exists x. now split; [left|].
  - destruct (IH Hin) as (x' & Hx' & HR). exists x'. now split; [right|].
Qed.

Lemma non_null_In {A} (array : list (option A)) (a : A) :
  In a (non_null array) <-> In (Some a) array.
Proof.
  unfold non_null. rewrite in_flat_map. split.
  - intros ([x|] & Hin & Hx); simpl in Hx; [|contradiction].
    destruct Hx as [->|[]]. exact Hin.
  - intros Hin. exists (Some a). split; [exact Hin | now left].
Qed.

(** C9. The submenu factories skip host entries silently.  RecentFiles keeps
    the recent entries whose [exists()] answers true; FrequentlyUsed and
    Favorites keep the entries which are, or resolve to, an application
    object.  A skipped entry makes the factory neither throw nor push a
    placeholder: every item stems from a kept entry, and there are as many
    items as kept entries, which may be fewer than the host list has (and
    fewer than [maxNum]). *)
Theorem submenus_skip_entries (h : Host) (args : list value) :
  (exists items,
      RecentFiles_createItem h args = Ok (container (arg 0 args) (arg 1 args) items) /\
      List.length items =
        List.length
          (filter RecentInfo.exists_
             (slice0 h (Gtk_RecentManager_get_items h) (arg 2 args))) /\
      Forall
        (fun item =>
           exists recentFile,
             In recentFile (slice0 h (Gtk_RecentManager_get_items h) (arg 2 args)) /\
             RecentInfo.exists_ recentFile = true /\
             item = RecentFiles_item recentFile)
        items) /\
  (forall shell,
      Shell (load h) = Some shell ->
      (Forall (fun app => AppInfo.get_icon (App.get_app_info app) <> None)
         (non_null (slice0 h (Shell.AppUsage_get_most_used shell) (arg 2 args))) ->
       exists r, FrequentlyUsed_createItem h args = Ok r) /\
      (forall r,
          FrequentlyUsed_createItem h args = Ok r ->
          List.length (items_of r) =
            List.length
              (non_null (slice0 h (Shell.AppUsage_get_most_used shell) (arg 2 args))) /\
          Forall
            (fun item =>
               exists app,
                 In (Some app)
                   (slice0 h (Shell.AppUsage_get_most_used shell) (arg 2 args)) /\
                 activation_of item = Some (FrequentlyUsed_activate app))
            (items_of r))) /\
  (forall shell,
      Shell (load h) = Some shell ->
      (Forall (fun app => AppInfo.get_icon (App.get_app_info app) <> None)
         (non_null
            (map (Shell.AppSystem_lookup_app shell)
               (global_settings_get_strv h "favorite-apps"))) ->
       exists r, Favorites_createItem h args = Ok r) /\
      (forall r,
          Favorites_createItem h args = Ok r ->
          List.length (items_of r) =
            List.length
              (non_null
                 (map (Shell.AppSystem_lookup_app shell)
                    (global_settings_get_strv h "favorite-apps"))) /\
          Forall
            (fun item =>
               exists appName app,
                 In appName (global_settings_get_strv h "favorite-apps") /\
                 Shell.AppSystem_lookup_app shell appName = Some app /\
                 activation_of item = Some (Favorites_activate app))
            (items_of r))) /\
  (exists h' r,
      RecentFiles_createItem h' [VStr "Recent Files"; VStr "document-open-recent"; VNum 3]
        = Ok r /\
      (List.length (items_of r) < 3)%nat /\
      (3 <= List.length (Gtk_RecentManager_get_items h'))%nat).
Proof.
  assert (Hfav : forall shell,
             Shell (load h) = Some shell ->
             forall names,
               collect (Favorites_items h) names =
               collect (App_items Favorites_activate)
                 (map (Shell.AppSystem_lookup_app shell) names)).
  { intros shell Hshell names. apply Shell_binding in Hshell.
    induction names as [|appName rest IH]; simpl; [reflexivity|].
    unfold Favorites_items at 1. rewrite Hshell. cbn [bind]. now rewrite IH. }
  split; [|split; [|split]].
  - eexists. split; [apply RecentFiles_createItem_eq|].
    split; [apply length_map|].
    apply Forall_forall. intros item Hitem.
    apply in_map_iff in Hitem as (recentFile & <- & Hin).
    apply filter_In in Hin as [Hin Hexists].
    now exists recentFile.
  - intros shell Hshell. pose proof Hshell as Hderef.
    apply Shell_binding in Hderef. split.
    + intros Hicons. rewrite FrequentlyUsed_createItem_eq, Hderef. cbn [bind].
      destruct (collect_App_items_returns FrequentlyUsed_activate _ Hicons)
        as (items & ->).
      now eexists.
    + intros r H. rewrite FrequentlyUsed_createItem_eq, Hderef in H. cbn [bind] in H.
      apply bind_Ok_inv in H as (items & Hitems & H). injection H as <-.
      rewrite items_of_container. split.
      * now apply collect_non_null_length in Hitems.
      * apply collect_Forall2
          with (R := fun a item => activation_of item = Some (FrequentlyUsed_activate a))
               (keep := fun x : option App.t =>
                          match x with Some a => [a] | None => [] end)
          in Hitems; [|apply App_items_origin].
        fold (non_null (slice0 h (Shell.AppUsage_get_most_used shell) (arg 2 args)))
          in Hitems.
        apply Forall_forall. intros item Hitem.
        destruct (Forall2_In_right Hitems Hitem) as (app & Happ & Hact).
        exists app. split; [now apply non_null_In | exact Hact].
  - intros shell Hshell. split.
    + intros Hicons. rewrite Favorites_createItem_eq, (global_with_Shell h shell Hshell),
        (Hfav shell Hshell). cbn [bind].
      destruct (collect_App_items_returns Favorites_activate _ Hicons)
        as (items & ->).
      now eexists.
    + intros r H. rewrite Favorites_createItem_eq, (global_with_Shell h shell Hshell),
        (Hfav shell Hshell) in H. cbn [bind] in H.
      apply bind_Ok_inv in H as (items & Hitems & H). injection H as <-.
      rewrite items_of_container. split.
      * now apply collect_non_null_length in Hitems.
      * apply collect_Forall2
          with (R := fun a item => activation_of item = Some (Favorites_activate a))
               (keep := fun x : option App.t =>
                          match x with Some a => [a] | None => [] end)
          in Hitems; [|apply App_items_origin].
        apply Forall_forall. intros item Hitem.
        destruct (Forall2_In_right Hitems Hitem) as (app & Happ & Hact).
        apply non_null_In, in_map_iff in Happ as (appName & Hlookup & Hin).
        now exists appName, app.
  - exists (Example.desktop false). eexists.
    split; [reflexivity|]. split; simpl; lia.
Qed.

Lemma submenus_skip_entries_witness :
  exists r,
    FrequentlyUsed_createItem (Example.desktop false)
      [VStr "Frequently Used"; VStr "emblem-favorite"; VNum 3] = Ok r /\
    List.length (items_of r) = 2%nat.
Proof.
  eexists. split; [reflexivity|].
  destruct (submenus_skip_entries (Example.desktop false)
              [VStr "Frequently Used"; VStr "emblem-favorite"; VNum 3])
    as (_ & HFrequentlyUsed & _).
  destruct (HFrequentlyUsed (Example.shell false) eq_refl) as [_ Hitems].
  destruct (Hitems _ eq_refl) as [Hlength _].
  exact Hlength.
Defined.

(** ** Fallbacks for missing metadata (C10) *)

Lemma collect_returns_iff {A} (g : A -> result (list value)) (entries : list A) :
  (exists items, collect g entries = Ok items) <->
  Forall (fun x => exists ys, g x = Ok ys) entries.
Proof.
  induction entries as [|x rest IH]; cbn [collect].
  - split; [constructor | now eexists].
  - rewrite Forall_cons_iff, <- IH. split.
    + intros (items & H).
      apply bind_Ok_inv in H as (ys & Hys & H).
      apply bind_Ok_inv in H as (zs & Hzs & _).
      split; eexists; eassumption.
    + intros [(ys & ->) (zs & ->)]. now eexists.
Qed.

Lemma TreeDirectory_items_returns_iff (dir : TreeDirectory) :
  (exists items, TreeDirectory_items dir = Ok items) <->
  directories_have_icons dir = true.
Proof.
  induction dir as [get_name get_icon contents IH] using TreeDirectory_induction.
  rewrite TreeDirectory_items_eq, collect_returns_iff.
  cbn [directories_have_icons TreeDirectory_contents].
  rewrite forallb_forall, Forall_forall. rewrite Forall_forall in IH.
  split; intros H node Hin; specialize (H node Hin); specialize (IH node Hin);
    destruct node as [app|directory| | |]; cbn [TreeItem_items] in *;
    try reflexivity; try (now eexists).
  - destruct H as (ys & H).
    destruct (TreeDirectory_get_icon directory) as [gicon|]; [|discriminate].
    cbn [deref bind andb] in H |- *. apply IH.
    destruct (TreeDirectory_items directory) as [items|]; [now eexists | discriminate].
  - apply andb_true_iff in H as [Hicon Hbelow].
    destruct (TreeDirectory_get_icon directory) as [gicon|]; [|discriminate].
    apply IH in Hbelow as (items & ->). cbn. now eexists.
Qed.

Lemma TreeDirectory_entries_eq (dir : TreeDirectory) :
  TreeDirectory_entries dir = flat_map TreeItem_entries (TreeDirectory_contents dir).
Proof. destruct dir. reflexivity. Qed.

Lemma leaves_leaf (name icon : value) (f : closure) :
  leaves (leaf name icon f) = [leaf name icon f].
Proof. destruct name, icon; reflexivity. Qed.

Lemma leaves_container (name icon : value) (items : list value) :
  leaves (container name icon items) = flat_map leaves items.
Proof. destruct name, icon; cbn; now rewrite app_nil_r. Qed.

Lemma TreeDirectory_items_leaves (dir : TreeDirectory) :
  forall items,
    TreeDirectory_items dir = Ok items ->
    flat_map leaves items = map MainMenu_entry_item (TreeDirectory_entries dir).
Proof.
  induction dir as [get_name get_icon contents IH] using TreeDirectory_induction.
  intros items H. rewrite TreeDirectory_items_eq in H.
  rewrite TreeDirectory_entries_eq. cbn [TreeDirectory_contents] in H |- *.
  revert items H.
  induction IH as [|node rest Hnode _ IHrest]; intros items H; cbn [collect] in H.
  - apply Ok_inj in H. now subst items.
  - apply bind_Ok_inv in H as (ys & Hys & H).
    apply bind_Ok_inv in H as (zs & Hzs & H). apply Ok_inj in H. subst items.
    cbn [flat_map]. rewrite flat_map_app, map_app, (IHrest zs Hzs). f_equal.
    destruct node as [app|directory| | |];
      cbn [TreeItem_items TreeItem_entries] in Hys |- *.
    + apply Ok_inj in Hys. subst ys. cbn [flat_map map].
      unfold MainMenu_entry_item. now rewrite leaves_leaf, app_nil_r.
    + apply bind_Ok_inv in Hys as (gicon & _ & Hys).
      apply bind_Ok_inv in Hys as (subitems & Hsub & Hys).
      apply Ok_inj in Hys. subst ys. cbn [flat_map].
      rewrite leaves_container, app_nil_r. now apply Hnode.
    + apply Ok_inj in Hys. now subst ys.
    + apply Ok_inj in Hys. now subst ys.
    + apply Ok_inj in Hys. now subst ys.
Qed.

Lemma Bookmarks_items_fallbacks (h : Host) (path : option string) (ys : list value) :
  Bookmarks_items h path = Ok ys ->
  Forall2
    (fun path item =>
       exists p,
         path = Some p /\
         (forall e,
             File.query_info (Gio_File_new_for_path h p) "standard::display-name"
               = Throw e ->
             prop "name" item = VStr (File.get_basename (Gio_File_new_for_path h p))) /\
         (forall e,
             File.query_info (Gio_File_new_for_path h p) "standard::icon" = Throw e ->
             prop "icon" item = VStr "missing-image"))
    [path] ys.
Proof.
  unfold Bookmarks_items. destruct path as [p|]; cbn; intros H; [|discriminate].
  apply Ok_inj in H. subst ys. constructor; [|constructor].
  exists p. split; [reflexivity|]. unfold Bookmarks_item.
  split; intros e He; rewrite He; reflexivity.
Qed.

Lemma Bookmarks_returns_iff (h : Host) (args : list value) :
  (exists r, Bookmarks_createItem h args = Ok r) <->
  (forall dir, In dir DEFAULT_DIRECTORIES -> GLib_get_user_special_dir h dir <> None).
Proof.
  rewrite Bookmarks_createItem_eq.
  assert (Hbind : forall m : result (list value),
             (exists r, (let? items := m in
                         Ok (container (arg 0 args) (arg 1 args) items)) = Ok r) <->
             (exists items, m = Ok items)).
  { intros [items|e]; cbn; split; intros (x & H); try discriminate; now eexists. }
  rewrite Hbind, collect_returns_iff. unfold Bookmarks_paths.
  rewrite Forall_cons_iff, Forall_map, Forall_forall.
  split.
  - intros [_ H] dir Hin Hnone. destruct (H dir Hin) as (ys & Hys).
    unfold Bookmarks_items in Hys. rewrite Hnone in Hys. discriminate.
  - intros H. split; [now eexists|].
    intros dir Hin. specialize (H dir Hin). unfold Bookmarks_items.
    destruct (GLib_get_user_special_dir h dir); [now eexists | contradiction].
Qed.

(** C10. A failing metadata lookup is answered by a fallback and does not
    make [createItem] throw.  In the record Bookmarks.createItem returns,
    the name of an item is the basename of its file when querying the
    display name throws, and its icon is 'missing-image' when querying the
    icon throws; the factory returns whenever the eight default directories
    are configured, whatever the queries do.  In the record
    MainMenu.createItem returns, the item of an application without icon has
    the icon 'missing-image', at every depth; the factory returns whenever
    the menu tree is loaded and its directories have icons, whatever icons
    the applications have. *)
Theorem metadata_fallbacks (h : Host) (args : list value) :
  (forall name icon l file,
      exists item,
        pushFile (container name icon l) file =
          Ok (container name icon (l ++ [item])%list) /\
        activation_of item = Some (Bookmarks_activate file) /\
        (forall e,
            File.query_info file "standard::display-name" = Throw e ->
            prop "name" item = VStr (File.get_basename file)) /\
        (forall e,
            File.query_info file "standard::icon" = Throw e ->
            prop "icon" item = VStr "missing-image")) /\
  (forall r,
      Bookmarks_createItem h args = Ok r ->
      Forall2
        (fun path item =>
           exists p,
             path = Some p /\
             (forall e,
                 File.query_info (Gio_File_new_for_path h p) "standard::display-name"
                   = Throw e ->
                 prop "name" item =
                   VStr (File.get_basename (Gio_File_new_for_path h p))) /\
             (forall e,
                 File.query_info (Gio_File_new_for_path h p) "standard::icon"
                   = Throw e ->
                 prop "icon" item = VStr "missing-image"))
        (Some (GLib_get_home_dir h)
           :: map (GLib_get_user_special_dir h) DEFAULT_DIRECTORIES)
        (items_of r)) /\
  ((forall dir, In dir DEFAULT_DIRECTORIES -> GLib_get_user_special_dir h dir <> None) ->
   exists r, Bookmarks_createItem h args = Ok r) /\
  (forall r,
      MainMenu_createItem h args = Ok r ->
      leaves r =
        map
          (fun app =>
             leaf (VStr (AppInfo.get_name app))
               (VStr match AppInfo.get_icon app with
                     | Some gicon => Icon.to_string gicon
                     | None => "missing-image"
                     end)
               (MainMenu_activate app))
          (TreeDirectory_entries (GMenu_Tree_get_root_directory h))) /\
  (forall u,
      GMenu_Tree_load_sync h = Ok u ->
      directories_have_icons (GMenu_Tree_get_root_directory h) = true ->
      exists r, MainMenu_createItem h args = Ok r).
Proof.
  split; [|split; [|split; [|split]]].
  - intros name icon l file. exists (Bookmarks_item file).
    split; [apply pushFile_eq|]. split; [reflexivity|].
    unfold Bookmarks_item. split; intros e He; rewrite He; reflexivity.
  - intros r H. rewrite Bookmarks_createItem_eq in H.
    apply bind_Ok_inv in H as (items & Hitems & H). apply Ok_inj in H. subst r.
    rewrite items_of_container.
    apply collect_Forall2
      with (R := fun path item =>
                   exists p,
                     path = Some p /\
                     (forall e,
                         File.query_info (Gio_File_new_for_path h p)
                           "standard::display-name" = Throw e ->
                         prop "name" item =
                           VStr (File.get_basename (Gio_File_new_for_path h p))) /\
                     (forall e,
                         File.query_info (Gio_File_new_for_path h p)
                           "standard::icon" = Throw e ->
                         prop "icon" item = VStr "missing-image"))
           (keep := fun path : option string => [path])
      in Hitems; [|apply Bookmarks_items_fallbacks].
    rewrite flat_map_unit, map_id in Hitems. exact Hitems.
  - apply Bookmarks_returns_iff.
  - intros r H. rewrite MainMenu_createItem_eq in H.
    apply bind_Ok_inv in H as (u & _ & H).
    apply bind_Ok_inv in H as (items & Hitems & H). apply Ok_inj in H. subst r.
    rewrite leaves_container. now apply TreeDirectory_items_leaves.
  - intros u Hload Hicons. rewrite MainMenu_createItem_eq, Hload. cbn [bind].
    apply TreeDirectory_items_returns_iff in Hicons as (items & ->).
    now eexists.
Qed.

Lemma metadata_fallbacks_witness :
  exists r,
    MainMenu_createItem (Example.desktop false)
      [VStr "Main Menu"; VStr "applications-system"] = Ok r /\
    leaves r =
      [leaf (VStr "Terminal") (VStr "utilities-terminal")
         (MainMenu_activate (Example.terminal_info false));
       leaf (VStr "Calculator") (VStr "missing-image")
         (MainMenu_activate (Example.calculator_info false));
       leaf (VStr "Text Editor") (VStr "accessories-text-editor")
         (MainMenu_activate (Example.editor_info false))].
Proof.
  eexists. split; [reflexivity|].
  exact (proj1 (proj2 (proj2 (proj2
           (metadata_fallbacks (Example.desktop false)
              [VStr "Main Menu"; VStr "applications-system"])))) _ eq_refl).
Defined.

(** ** Names and icons (C3) *)

Lemma leaf_named (name icon : string) (f : closure) :
  nonempty name = true -> nonempty icon = true ->
  all_named (leaf (VStr name) (VStr icon) f) = true.
Proof.
  intros Hname Hicon. cbn. unfold nonempty in Hname, Hicon.
  now rewrite Hname, Hicon.
Qed.

Lemma container_named (name icon : value) (items : list value) :
  nonempty_string name = true -> nonempty_string icon = true ->
  Forall (fun v => all_named v = true) items ->
  all_named (container name icon items) = true.
Proof.
  intros Hname Hicon Hitems.
  destruct name; try discriminate. destruct icon; try discriminate.
  cbn. cbn in Hname, Hicon. rewrite Hname, Hicon. cbn.
  rewrite andb_true_r. apply forallb_forall. now apply Forall_forall.
Qed.

Lemma firstn_In {A} (n : nat) (l : list A) (x : A) :
  In x (firstn n l) -> In x l.
Proof.
  intros Hin. rewrite <- (firstn_skipn n l). apply in_or_app. now left.
Qed.

Lemma slice0_In {A} (h : Host) (array : list A) (end_ : value) (x : A) :
  In x (slice0 h array end_) -> In x array.
Proof. unfold slice0. apply firstn_In. Qed.

Lemma collect_Forall_In {A} (P : value -> Prop) (g : A -> result (list value)) :
  forall entries items,
    (forall x ys, In x entries -> g x = Ok ys -> Forall P ys) ->
    collect g entries = Ok items -> Forall P items.
Proof.
  induction entries as [|x rest IH]; simpl; intros items Hg H.
  - injection H as <-. constructor.
  - apply bind_Ok_inv in H as (ys & Hys & H).
    apply bind_Ok_inv in H as (zs & Hzs & H).
    injection H as <-.
    apply Forall_app. split.
    + apply (Hg x); [now left | exact Hys].
    + apply IH; [|exact Hzs]. intros x' ys' Hin. apply Hg. now right.
Qed.

Lemma Bookmarks_item_named (file : File.t) :
  File_named file = true -> all_named (Bookmarks_item file) = true.
Proof.
  unfold File_named, Bookmarks_item. intros H.
  apply andb_true_iff in H as [H Hicon].
  apply andb_true_iff in H as [Hbase Hname].
  apply leaf_named.
  - now destruct (File.query_info file "standard::display-name").
  - now destruct (File.query_info file "standard::icon").
Qed.

Lemma App_items_named (activate : App.t -> closure) (app : option App.t)
      (ys : list value) :
  match app with Some a => App_named a = true | None => True end ->
  App_items activate app = Ok ys ->
  Forall (fun v => all_named v = true) ys.
Proof.
  destruct app as [app|]; simpl; intros Hnamed H.
  - apply bind_Ok_inv in H as (gicon & Hgicon & H). injection H as <-.
    unfold App_named, AppInfo_named in Hnamed.
    apply andb_true_iff in Hnamed as [Hnamed _].
    apply andb_true_iff in Hnamed as [Hname Hinfo].
    apply andb_true_iff in Hinfo as [_ Hicon].
    destruct (AppInfo.get_icon (App.get_app_info app)); [|discriminate].
    injection Hgicon as <-.
    constructor; [|constructor]. now apply leaf_named.
  - injection H as <-. constructor.
Qed.

Lemma RunningApps_items_named (app : App.t) (ys : list value) :
  App_named app = true ->
  RunningApps_items app = Ok ys ->
  Forall (fun v => all_named v = true) ys.
Proof.
  unfold RunningApps_items. intros Hnamed H.
  apply bind_Ok_inv in H as (gicon & Hgicon & H). injection H as <-.
  unfold App_named, AppInfo_named in Hnamed.
  apply andb_true_iff in Hnamed as [Hnamed Hwindows].
  apply andb_true_iff in Hnamed as [_ Hinfo].
  apply andb_true_iff in Hinfo as [_ Hicon].
  destruct (AppInfo.get_icon (App.get_app_info app)); [|discriminate].
  injection Hgicon as <-.
  apply Forall_forall. intros item Hitem.
  apply in_map_iff in Hitem as (window & <- & Hwindow).
  apply leaf_named; [|exact Hicon].
  exact (proj1 (forallb_forall _ _) Hwindows window Hwindow).
Qed.

Lemma TreeDirectory_items_named (dir : TreeDirectory) :
  TreeDirectory_named dir = true ->
  forall items,
    TreeDirectory_items dir = Ok items ->
    Forall (fun v => all_named v = true) items.
Proof.
  induction dir as [get_name get_icon contents IH] using TreeDirectory_induction.
  intros Hnamed items H. cbn [TreeDirectory_named] in Hnamed.
  apply andb_true_iff in Hnamed as [_ Hcontents].
  rewrite TreeDirectory_items_eq in H. cbn [TreeDirectory_contents] in H.
  revert items H.
  induction IH as [|node rest Hnode _ IHrest]; intros items H; cbn [collect] in H.
  - apply Ok_inj in H. subst items. constructor.
  - cbn [forallb] in Hcontents. apply andb_true_iff in Hcontents as [Hn Hrest].
    apply bind_Ok_inv in H as (ys & Hys & H).
    apply bind_Ok_inv in H as (zs & Hzs & H). apply Ok_inj in H. subst items.
    apply Forall_app. split; [|now apply IHrest].
    destruct node as [app|directory| | |]; cbn [TreeItem_items] in Hys.
    + apply Ok_inj in Hys. subst ys. constructor; [|constructor].
      unfold AppInfo_named in Hn. apply andb_true_iff in Hn as [Hname Hicon].
      apply leaf_named; [exact Hname|].
      now destruct (AppInfo.get_icon app).
    + specialize (Hnode Hn).
      destruct directory as [dname dicon dcontents].
      cbn [TreeDirectory_get_icon TreeDirectory_get_name] in Hys.
      destruct dicon as [gicon|]; [|discriminate]. cbn [deref bind] in Hys.
      apply bind_Ok_inv in Hys as (subitems & Hsub & Hys).
      apply Ok_inj in Hys. subst ys.
      cbn [TreeDirectory_named] in Hn.
      apply andb_true_iff in Hn as [Hn _]. apply andb_true_iff in Hn as [Hdn Hdi].
      constructor; [|constructor].
      apply container_named; [exact Hdn | exact Hdi | now apply Hnode].
    + apply Ok_inj in Hys. subst ys. constructor.
    + apply Ok_inj in Hys. subst ys. constructor.
    + apply Ok_inj in Hys. subst ys. constructor.
Qed.

Lemma Shell_load (h : Host) (shell : Shell.t) :
  Shell (load h) = Some shell -> imports_gi_Shell h = Ok shell.
Proof.
  unfold load. destruct (imports_gi_Shell h) as [sh|e]; [|discriminate].
  destruct (new_InputManipulator h); simpl; intros H; now injection H as ->.
Qed.

(** C3, as stated, fails: the factories store the name and the icon which
    the caller supplies as they are, so an empty name yields a record with an
    empty name. *)
Lemma names_may_be_empty :
  ~ (forall key ty h args r,
        In (key, ty) ItemTypes ->
        ItemType.createItem ty h args = Ok r ->
        all_named r = true).
Proof.
  intros claim.
  specialize (claim "Hotkey"
                {| ItemType.name := "Press Hotkey";
                   ItemType.icon := "accessories-character-map";
                   ItemType.description := "Simulates a key stroke.";
                   ItemType.settingsType := SettingsTypes_ "HOTKEY";
                   ItemType.settingsList := "action-types-list";
                   ItemType.createItem := Hotkey_createItem |}
                (Example.desktop false)
                [VStr ""; VStr "accessories-character-map"; VStr "<Control>c"]
                (leaf (VStr "") (VStr "accessories-character-map")
                   (Hotkey_activate (VStr "<Control>c")))).
  cbn in claim. discriminate claim; auto.
Qed.

(** C3, amended.  Every record which [createItem] produces, the top-level
    record and every nested item, has a non-empty name string and a non-empty
    icon string, provided that the name and the icon which the caller
    supplies are non-empty strings and that the names, titles and icon
    strings which the host delivers are non-empty. *)
Theorem records_named (key : string) (ty : ItemType.t) (h : Host)
        (args : list value) (r : value) :
  In (key, ty) ItemTypes ->
  nonempty_string (arg 0 args) = true ->
  nonempty_string (arg 1 args) = true ->
  Host_named h = true ->
  ItemType.createItem ty h args = Ok r ->
  all_named r = true.
Proof.
  intros Hin Hname Hicon Hhost H.
  unfold Host_named in Hhost.
  apply andb_true_iff in Hhost as [Hhost Htree].
  apply andb_true_iff in Hhost as [Hhost Hrecent].
  apply andb_true_iff in Hhost as [Hshell Hfiles].
  assert (Hshell' : forall shell,
             deref "Shell" (Shell (load h)) = Ok shell -> Shell_named h shell = true).
  { intros shell Hs. apply Shell_binding, Shell_load in Hs.
    now rewrite Hs in Hshell. }
  clear Hshell.
  assert (Hleaf : forall f, all_named (leaf (arg 0 args) (arg 1 args) f) = true).
  { intros f. destruct (arg 0 args); try discriminate.
    destruct (arg 1 args); try discriminate.
    now apply leaf_named. }
  simpl in Hin.
  repeat (destruct Hin as [Hin|Hin]; [injection Hin as <- <-; cbn [ItemType.createItem] in H|]);
    try contradiction.
  - apply Ok_inj in H. subst r. apply Hleaf.
  - apply Ok_inj in H. subst r. apply Hleaf.
  - apply Ok_inj in H. subst r. apply Hleaf.
  - apply Ok_inj in H. subst r. apply Hleaf.
  - rewrite Bookmarks_createItem_eq in H.
    apply bind_Ok_inv in H as (items & Hitems & H). apply Ok_inj in H. subst r.
    apply container_named; [assumption..|].
    eapply collect_Forall_In; [|exact Hitems].
    intros path ys Hpath Hys.
    pose proof (proj1 (forallb_forall _ _) Hfiles path Hpath) as Hfile.
    unfold Bookmarks_items in Hys. destruct path as [p|]; [|discriminate].
    cbn in Hys. apply Ok_inj in Hys. subst ys.
    constructor; [|constructor]. now apply Bookmarks_item_named.
  - rewrite RunningApps_createItem_eq in H.
    apply bind_Ok_inv in H as (shell & Hs & H).
    apply bind_Ok_inv in H as (items & Hitems & H). injection H as <-.
    apply container_named; [assumption..|].
    specialize (Hshell' shell Hs). unfold Shell_named in Hshell'.
    apply andb_true_iff in Hshell' as [Hshell' _].
    apply andb_true_iff in Hshell' as [Hrunning _].
    eapply collect_Forall_In; [|exact Hitems].
    intros app ys Happ. apply RunningApps_items_named.
    exact (proj1 (forallb_forall _ _) Hrunning app Happ).
  - rewrite RecentFiles_createItem_eq in H. injection H as <-.
    apply container_named; [assumption..|].
    apply Forall_forall. intros item Hitem.
    apply in_map_iff in Hitem as (recentFile & <- & Hfile).
    apply filter_In in Hfile as [Hfile _]. apply slice0_In in Hfile.
    pose proof (proj1 (forallb_forall _ _) Hrecent recentFile Hfile) as Hn.
    unfold RecentInfo_named in Hn. apply andb_true_iff in Hn as [Hn Hi].
    now apply leaf_named.
  - rewrite FrequentlyUsed_createItem_eq in H.
    apply bind_Ok_inv in H as (shell & Hs & H).
    apply bind_Ok_inv in H as (items & Hitems & H). injection H as <-.
    apply container_named; [assumption..|].
    specialize (Hshell' shell Hs). unfold Shell_named in Hshell'.
    apply andb_true_iff in Hshell' as [_ Hused].
    eapply collect_Forall_In; [|exact Hitems].
    intros [app|] ys Happ; [|now apply App_items_named].
    apply App_items_named.
    apply slice0_In, non_null_In in Happ.
    exact (proj1 (forallb_forall _ _) Hused app Happ).
  - rewrite Favorites_createItem_eq in H.
    apply bind_Ok_inv in H as (g & _ & H).
    apply bind_Ok_inv in H as (items & Hitems & H). injection H as <-.
    apply container_named; [assumption..|].
    eapply collect_Forall_In; [|exact Hitems].
    intros appName ys HappName Hys. unfold Favorites_items in Hys.
    apply bind_Ok_inv in Hys as (shell & Hs & Hys).
    specialize (Hshell' shell Hs). unfold Shell_named in Hshell'.
    apply andb_true_iff in Hshell' as [Hshell' _].
    apply andb_true_iff in Hshell' as [_ Hfavorites].
    pose proof (proj1 (forallb_forall _ _) Hfavorites appName HappName) as Hn.
    cbv beta in Hn.
    eapply App_items_named; [|exact Hys].
    destruct (Shell.AppSystem_lookup_app shell appName); [exact Hn | exact I].
  - rewrite MainMenu_createItem_eq in H.
    apply bind_Ok_inv in H as (u & _ & H).
    apply bind_Ok_inv in H as (items & Hitems & H). injection H as <-.
    apply container_named; [assumption..|].
    destruct (GMenu_Tree_get_root_directory h) as [rname ricon contents].
    apply (TreeDirectory_items_named (mkTreeDirectory "root" None contents));
      [|exact Hitems].
    cbn [TreeDirectory_named]. exact Htree.
Qed.

Lemma records_named_witness :
  exists r,
    RunningApps_createItem (Example.desktop false)
      [VStr "Running Apps"; VStr "preferences-system-windows"] = Ok r /\
    all_named r = true.
Proof.
  eexists. split; [reflexivity|].
  apply (records_named "RunningApps"
           {| ItemType.name := "Running Apps";
              ItemType.icon := "preferences-system-windows";
              ItemType.description := "Shows the currently running applications.";
              ItemType.settingsType := SettingsTypes_ "NONE";
              ItemType.settingsList := "submenu-types-list";
              ItemType.createItem := RunningApps_createItem |}
           (Example.desktop false)
           [VStr "Running Apps"; VStr "preferences-system-windows"]).
  - simpl. do 5 right. left. reflexivity.
  - reflexivity.
  - reflexivity.
  - reflexivity.
  - reflexivity.
Defined.

(** ** Activations (C2) *)


Lemma activations_leaf (name icon : value) (f : closure) :
  activations (leaf name icon f) = [f].
Proof. destruct name, icon; reflexivity. Qed.

Lemma activations_container (name icon : value) (items : list value) :
  activations (container name icon items) = flat_map activations items.
Proof.
  destruct name, icon; cbn; now rewrite app_nil_r.
Qed.








(** * Further properties of the registry *)

(** ** The optional imports *)

(** X1. The bindings after the optional imports: [Shell] is bound exactly
    when the import of Shell succeeds, and [InputManipulator] is bound
    exactly when both the import and the construction succeed; hence
    [InputManipulator] is never bound without [Shell]. *)
Theorem load_bindings (h : Host) :
  (forall shell, Shell (load h) = Some shell <-> imports_gi_Shell h = Ok shell) /\
  (forall im,
      InputManipulator (load h) = Some im <->
      (exists shell, imports_gi_Shell h = Ok shell) /\ new_InputManipulator h = Ok im) /\
  (InputManipulator (load h) <> None -> Shell (load h) <> None).
Proof.
  unfold load.
  destruct (imports_gi_Shell h) as [sh|e], (new_InputManipulator h) as [im0|e'];
    cbn; (split; [|split]); try congruence.
  all: try (intros shell; split; congruence).
  all: intros im; split; try congruence.
  - intros H. split; [now exists sh | congruence].
  - intros [_ H]. congruence.
  - intros [_ H]. congruence.
  - intros [(shell & Hs) _]. congruence.
  - intros [(shell & Hs) _]. congruence.
Qed.

Lemma load_bindings_witness :
  Shell (load (Example.desktop false)) = Some (Example.shell false) /\
  Shell (load Example.settings) = None.
Proof.
  split.
  - apply (proj1 (load_bindings (Example.desktop false))). reflexivity.
  - destruct (Shell (load Example.settings)) as [shell|] eqn:Hshell; [|reflexivity].
    apply (proj1 (load_bindings Example.settings)) in Hshell. discriminate Hshell.
Defined.

(** X2. The activation of a Hotkey item returns normally exactly when Shell
    could be imported, the input manipulator could be constructed and its
    [activateAccelerator] returns for the hotkey.  When Shell could not be
    imported it throws without calling the host, whatever the construction
    of the input manipulator would have given. *)
Theorem Hotkey_activate_outcome (h : Host) (hotkey : value) :
  (snd (activate h (Hotkey_activate hotkey)) = Ok tt <->
   exists shell im,
     imports_gi_Shell h = Ok shell /\
     new_InputManipulator h = Ok im /\
     InputManipulator.activateAccelerator im hotkey = Ok tt) /\
  (forall e,
      imports_gi_Shell h = Throw e ->
      exists err, activate h (Hotkey_activate hotkey) = ([], Throw err)).
Proof.
  unfold activate, load. split.
  - destruct (imports_gi_Shell h) as [sh|e]; cbn.
    + destruct (new_InputManipulator h) as [im|e]; cbn.
      * split.
        -- intros H. now exists sh, im.
        -- intros (shell & im' & _ & Him & H). now injection Him as ->.
      * split; [discriminate|]. intros (shell & im' & _ & Him & _). discriminate.
    + split; [discriminate|]. intros (shell & im' & Hs & _). discriminate.
  - intros e He. rewrite He. cbn. now eexists.
Qed.

Lemma Hotkey_activate_outcome_witness :
  exists err,
    activate Example.settings (Hotkey_activate (VStr "<Control>c")) = ([], Throw err).
Proof.
  apply (proj2 (Hotkey_activate_outcome Example.settings (VStr "<Control>c"))
           "Error: Requiring Shell, version none: Typelib file not found").
  reflexivity.
Defined.

(** ** The factories which need Shell *)

(** X3. Where Shell cannot be imported (in the preferences dialog), the
    factories which list applications throw: RunningApps.createItem and
    FrequentlyUsed.createItem on reading [Shell], Favorites.createItem on
    reading [global], which does not exist there either. *)
Theorem factories_without_Shell (h : Host) (args : list value) :
  Shell (load h) = None ->
  (exists e, RunningApps_createItem h args = Throw e) /\
  (exists e, FrequentlyUsed_createItem h args = Throw e) /\
  (exists e, Favorites_createItem h args = Throw e).
Proof.
  intros Hshell. repeat split.
  - rewrite RunningApps_createItem_eq, Hshell. cbn. now eexists.
  - rewrite FrequentlyUsed_createItem_eq, Hshell. cbn. now eexists.
  - rewrite Favorites_createItem_eq. unfold global.
    unfold load in Hshell.
    destruct (imports_gi_Shell h) as [sh|e]; [|cbn; now eexists].
    destruct (new_InputManipulator h); discriminate Hshell.
Qed.

Lemma factories_without_Shell_witness :
  (exists e,
      RunningApps_createItem Example.settings
        [VStr "Running Apps"; VStr "preferences-system-windows"] = Throw e) /\
  (exists e,
      Favorites_createItem Example.settings [VStr "Favorites"; VStr "starred"]
        = Throw e).
Proof.
  destruct (factories_without_Shell Example.settings
              [VStr "Running Apps"; VStr "preferences-system-windows"] eq_refl)
    as (Hrunning & _).
  destruct (factories_without_Shell Example.settings
              [VStr "Favorites"; VStr "starred"] eq_refl)
    as (_ & _ & Hfavorites).
  split; [exact Hrunning | exact Hfavorites].
Defined.

Lemma collect_RunningApps_returns (apps : list App.t) :
  (exists items, collect RunningApps_items apps = Ok items) <->
  forallb has_icon apps = true.
Proof.
  induction apps as [|app rest IH]; cbn [collect forallb].
  - split; [reflexivity | now eexists].
  - unfold RunningApps_items at 1, has_icon at 1.
    destruct (AppInfo.get_icon (App.get_app_info app)) as [gicon|]; cbn.
    + rewrite <- IH. split.
      * intros (items & H).
        destruct (collect RunningApps_items rest) as [zs|]; [now eexists | discriminate].
      * intros (zs & ->). now eexists.
    + split; [intros (items & H); discriminate | discriminate].
Qed.

Lemma collect_App_items_returns_iff (activate : App.t -> closure)
      (entries : list (option App.t)) :
  (exists items, collect (App_items activate) entries = Ok items) <->
  forallb has_icon (non_null entries) = true.
Proof.
  induction entries as [|[app|] rest IH]; cbn [collect].
  - split; [reflexivity | now eexists].
  - change (non_null (Some app :: rest)) with (app :: non_null rest).
    cbn [forallb App_items]. unfold has_icon at 1.
    destruct (AppInfo.get_icon (App.get_app_info app)) as [gicon|]; cbn.
    + rewrite <- IH. split.
      * intros (items & H).
        destruct (collect (App_items activate) rest) as [zs|];
          [now eexists | discriminate].
      * intros (zs & ->). now eexists.
    + split; [intros (items & H); discriminate | discriminate].
  - change (non_null (None :: rest)) with (non_null rest).
    cbn [App_items bind]. rewrite <- IH. split.
    + intros (items & H).
      destruct (collect (App_items activate) rest) as [zs|];
        [now eexists | discriminate].
    + intros (zs & ->). now eexists.
Qed.

Lemma Favorites_collect (h : Host) (shell : Shell.t) (names : list string) :
  Shell (load h) = Some shell ->
  collect (Favorites_items h) names =
  collect (App_items Favorites_activate) (map (Shell.AppSystem_lookup_app shell) names).
Proof.
  intros Hshell. apply Shell_binding in Hshell.
  induction names as [|appName rest IH]; simpl; [reflexivity|].
  unfold Favorites_items at 1. rewrite Hshell. cbn [bind]. now rewrite IH.
Qed.

Lemma bind_returns {A B} (m : result A) (k : A -> B) :
  (exists b, (let? a := m in Ok (k a)) = Ok b) <-> (exists a, m = Ok a).
Proof.
  destruct m as [a|e]; cbn; split; intros (x & H); try discriminate; now eexists.
Qed.

(** X4. With Shell at hand, the factories which list applications return
    exactly when every application they visit has an icon: RunningApps for
    the running applications (also those without a window), FrequentlyUsed
    for the applications of the slice which are not [null], Favorites for
    the favorite names which resolve to an application.  Otherwise the
    dereference of the missing icon throws. *)
Theorem Shell_factories_return_iff (h : Host) (args : list value) (shell : Shell.t) :
  Shell (load h) = Some shell ->
  ((exists r, RunningApps_createItem h args = Ok r) <->
   forallb has_icon (Shell.AppSystem_get_running shell) = true) /\
  ((exists r, FrequentlyUsed_createItem h args = Ok r) <->
   forallb has_icon
     (non_null (slice0 h (Shell.AppUsage_get_most_used shell) (arg 2 args))) = true) /\
  ((exists r, Favorites_createItem h args = Ok r) <->
   forallb has_icon
     (non_null
        (map (Shell.AppSystem_lookup_app shell)
           (global_settings_get_strv h "favorite-apps"))) = true).
Proof.
  intros Hshell. pose proof Hshell as Hderef. apply Shell_binding in Hderef.
  split; [|split].
  - rewrite RunningApps_createItem_eq, Hderef. cbn [bind].
    rewrite bind_returns. apply collect_RunningApps_returns.
  - rewrite FrequentlyUsed_createItem_eq, Hderef. cbn [bind].
    rewrite bind_returns. apply collect_App_items_returns_iff.
  - rewrite Favorites_createItem_eq, (global_with_Shell h shell Hshell),
      (Favorites_collect h shell _ Hshell). cbn [bind].
    rewrite bind_returns. apply collect_App_items_returns_iff.
Qed.

Lemma Shell_factories_return_iff_witness :
  exists r,
    RunningApps_createItem (Example.desktop false)
      [VStr "Running Apps"; VStr "preferences-system-windows"] = Ok r.
Proof.
  apply (proj1 (Shell_factories_return_iff (Example.desktop false)
                  [VStr "Running Apps"; VStr "preferences-system-windows"]
                  (Example.shell false) eq_refl)).
  reflexivity.
Defined.

(** X5. The submenu of RunningApps has one item per window of every running
    application, application by application: the name of the item is the
    title of the window and its icon is the icon of the application, so the
    windows of one application share their icon. *)
Theorem RunningApps_one_item_per_window (h : Host) (args : list value)
        (shell : Shell.t) (r : value) :
  Shell (load h) = Some shell ->
  RunningApps_createItem h args = Ok r ->
  Forall2
    (fun app_window item =>
       prop "name" item = VStr (Window.get_title (snd app_window)) /\
       activation_of item = Some (RunningApps_activate (snd app_window)) /\
       exists gicon,
         AppInfo.get_icon (App.get_app_info (fst app_window)) = Some gicon /\
         prop "icon" item = VStr (Icon.to_string gicon))
    (flat_map (fun app => map (pair app) (App.get_windows app))
       (Shell.AppSystem_get_running shell))
    (items_of r) /\
  List.length (items_of r) =
    List.length (flat_map App.get_windows (Shell.AppSystem_get_running shell)).
Proof.
  intros Hshell H. rewrite RunningApps_createItem_eq in H.
  apply Shell_binding in Hshell. rewrite Hshell in H. cbn [bind] in H.
  apply bind_Ok_inv in H as (items & Hitems & H). injection H as <-.
  rewrite items_of_container. split.
  - eapply collect_Forall2; [|exact Hitems].
    intros app ys Hys. unfold RunningApps_items in Hys.
    destruct (AppInfo.get_icon (App.get_app_info app)) as [gicon|] eqn:Hicon;
      [|discriminate].
    cbn in Hys. injection Hys as <-.
    induction (App.get_windows app) as [|window rest IH]; cbn; constructor.
    + cbn. split; [reflexivity|]. split; [reflexivity|]. now exists gicon.
    + exact IH.
  - apply collect_Forall2
      with (R := fun window item =>
                   activation_of item = Some (RunningApps_activate window))
           (keep := App.get_windows)
      in Hitems; [|apply RunningApps_items_origin].
    symmetry. eapply Forall2_length. exact Hitems.
Qed.

Lemma RunningApps_one_item_per_window_witness :
  exists r,
    RunningApps_createItem (Example.desktop false)
      [VStr "Running Apps"; VStr "preferences-system-windows"] = Ok r /\
    List.length (items_of r) = 3%nat.
Proof.
  eexists. split; [reflexivity|].
  exact (proj2 (RunningApps_one_item_per_window (Example.desktop false)
                  [VStr "Running Apps"; VStr "preferences-system-windows"]
                  (Example.shell false) _ eq_refl eq_refl)).
Defined.

(** ** The main menu *)

(** X6. MainMenu.createItem returns exactly when the menu tree is loaded
    and every directory below its root has an icon; the root's own icon is
    not read.  When loading throws, the factory throws the error of
    [load_sync]. *)
Theorem MainMenu_returns_iff (h : Host) (args : list value) :
  ((exists r, MainMenu_createItem h args = Ok r) <->
   (exists u, GMenu_Tree_load_sync h = Ok u) /\
   directories_have_icons (GMenu_Tree_get_root_directory h) = true) /\
  (forall e, GMenu_Tree_load_sync h = Throw e -> MainMenu_createItem h args = Throw e).
Proof.
  rewrite MainMenu_createItem_eq, <- TreeDirectory_items_returns_iff.
  destruct (GMenu_Tree_load_sync h) as [u|e']; cbn [bind]; split.
  - split.
    + intros (r & H). apply bind_Ok_inv in H as (items & Hitems & _).
      split; eexists; [reflexivity | exact Hitems].
    + intros [_ (items & ->)]. now eexists.
  - discriminate.
  - split; [intros (r & H); discriminate | intros [(u & H) _]; discriminate].
  - intros e H. injection H as ->. reflexivity.
Qed.

Lemma MainMenu_returns_iff_witness :
  MainMenu_createItem Example.without_menu [VStr "Main Menu"; VStr "applications-system"]
    = Throw "GLib.Error: Failed to look up menu file".
Proof.
  apply (proj2 (MainMenu_returns_iff Example.without_menu
                  [VStr "Main Menu"; VStr "applications-system"])
           "GLib.Error: Failed to look up menu file").
  reflexivity.
Defined.

Lemma TreeDirectory_items_activations (dir : TreeDirectory) :
  forall items,
    TreeDirectory_items dir = Ok items ->
    flat_map activations items = map MainMenu_activate (TreeDirectory_entries dir).
Proof.
  induction dir as [get_name get_icon contents IH] using TreeDirectory_induction.
  intros items H. rewrite TreeDirectory_items_eq in H.
  rewrite TreeDirectory_entries_eq. cbn [TreeDirectory_contents] in H |- *.
  revert items H.
  induction IH as [|node rest Hnode _ IHrest]; intros items H; cbn [collect] in H.
  - apply Ok_inj in H. now subst items.
  - apply bind_Ok_inv in H as (ys & Hys & H).
    apply bind_Ok_inv in H as (zs & Hzs & H). apply Ok_inj in H. subst items.
    cbn [flat_map]. rewrite flat_map_app, map_app, (IHrest zs Hzs). f_equal.
    destruct node as [app|directory| | |];
      cbn [TreeItem_items TreeItem_entries] in Hys |- *.
    + apply Ok_inj in Hys. subst ys. cbn [flat_map map].
      unfold MainMenu_entry_item. now rewrite activations_leaf.
    + apply bind_Ok_inv in Hys as (gicon & _ & Hys).
      apply bind_Ok_inv in Hys as (subitems & Hsub & Hys).
      apply Ok_inj in Hys. subst ys. cbn [flat_map].
      rewrite activations_container, app_nil_r. now apply Hnode.
    + apply Ok_inj in Hys. now subst ys.
    + apply Ok_inj in Hys. now subst ys.
    + apply Ok_inj in Hys. now subst ys.
Qed.

(** X7. The [activate] functions of the main menu, read off the returned
    record through all its nested submenus, are those of the applications of
    the menu tree, each application once, in the order in which the walk
    meets them; separators, headers and aliases leave no trace. *)
Theorem MainMenu_leaves (h : Host) (args : list value) (r : value) :
  MainMenu_createItem h args = Ok r ->
  activations r =
    map MainMenu_activate (TreeDirectory_entries (GMenu_Tree_get_root_directory h)).
Proof.
  intros H. rewrite MainMenu_createItem_eq in H.
  apply bind_Ok_inv in H as (u & _ & H).
  apply bind_Ok_inv in H as (items & Hitems & H). apply Ok_inj in H. subst r.
  rewrite activations_container. now apply TreeDirectory_items_activations.
Qed.

Lemma MainMenu_leaves_witness :
  exists r,
    MainMenu_createItem (Example.desktop false)
      [VStr "Main Menu"; VStr "applications-system"] = Ok r /\
    activations r =
      [MainMenu_activate (Example.terminal_info false);
       MainMenu_activate (Example.calculator_info false);
       MainMenu_activate (Example.editor_info false)].
Proof.
  eexists. split; [reflexivity|].
  exact (MainMenu_leaves (Example.desktop false)
           [VStr "Main Menu"; VStr "applications-system"] _ eq_refl).
Defined.

(** ** The argument [maxNum] *)

Lemma slice0_undefined {A} (h : Host) (array : list A) :
  slice0 h array VUndefined = array.
Proof.
  unfold slice0.
  destruct (Z.ltb_spec (Z.of_nat (List.length array)) 0) as [Hneg|_]; [lia|].
  rewrite Z.min_id, Nat2Z.id. apply firstn_all.
Qed.

Lemma slice0_negative {A} (h : Host) (array : list A) (n : Z) :
  n < 0 ->
  slice0 h array (VNum n) = firstn (List.length array - Z.to_nat (- n)) array.
Proof.
  intros Hn. unfold slice0. cbn [ToIntegerOrInfinity].
  destruct (Z.ltb_spec n 0) as [_|Hpos]; [|lia].
  f_equal. lia.
Qed.

(** X8. The edges of [slice(0, maxNum)] in RecentFiles.createItem, which
    always returns: without [maxNum] the submenu lists every existing recent
    file; with a negative [maxNum] it leaves out the last [-maxNum] entries
    of the host list and lists the existing ones among the others. *)
Theorem RecentFiles_maxNum_edges (h : Host) (name icon : value) :
  RecentFiles_createItem h [name; icon] =
    Ok (container name icon
          (map RecentFiles_item
             (filter RecentInfo.exists_ (Gtk_RecentManager_get_items h)))) /\
  forall maxNum,
    maxNum < 0 ->
    RecentFiles_createItem h [name; icon; VNum maxNum] =
      Ok (container name icon
            (map RecentFiles_item
               (filter RecentInfo.exists_
                  (firstn
                     (List.length (Gtk_RecentManager_get_items h) - Z.to_nat (- maxNum))
                     (Gtk_RecentManager_get_items h))))).
Proof.
  split.
  - rewrite RecentFiles_createItem_eq. cbn [arg nth].
    now rewrite slice0_undefined.
  - intros maxNum Hneg. rewrite RecentFiles_createItem_eq. cbn [arg nth].
    now rewrite slice0_negative.
Qed.

Lemma RecentFiles_maxNum_edges_witness :
  exists items,
    RecentFiles_createItem (Example.desktop false)
      [VStr "Recent Files"; VStr "document-open-recent"; VNum (-3)] =
      Ok (container (VStr "Recent Files") (VStr "document-open-recent") items) /\
    List.length items = 1%nat.
Proof.
  eexists. split.
  - apply (proj2 (RecentFiles_maxNum_edges (Example.desktop false)
                    (VStr "Recent Files") (VStr "document-open-recent")) (-3)).
    reflexivity.
  - reflexivity.
Defined.

Lemma firstn_le_split {A} (n m : nat) (l : list A) :
  (n <= m)%nat -> firstn m l = (firstn n l ++ skipn n (firstn m l))%list.
Proof.
  intros Hle. rewrite <- (firstn_skipn n (firstn m l)) at 1.
  now rewrite firstn_firstn, Nat.min_l.
Qed.

Lemma collect_app {A} (g : A -> result (list value)) (l1 l2 : list A) :
  collect g (l1 ++ l2) =
  (let? ys := collect g l1 in
   let? zs := collect g l2 in
   Ok (ys ++ zs)%list).
Proof.
  induction l1 as [|x rest IH]; cbn [collect app].
  - destruct (collect g l2); reflexivity.
  - destruct (g x) as [xs|e]; cbn [bind]; [|reflexivity].
    rewrite IH.
    destruct (collect g rest) as [ys|e]; cbn [bind]; [|reflexivity].
    destruct (collect g l2) as [zs|e]; cbn [bind]; [|reflexivity].
    now rewrite app_assoc.
Qed.

(** X9. Raising a non-negative [maxNum] only appends items: the submenu of
    RecentFiles for [n] is a prefix of the one for [m] whenever
    [0 <= n <= m]; and when FrequentlyUsed.createItem returns for [m], it
    returns for [n] as well, with a prefix of the items. *)
Theorem maxNum_monotone (h : Host) (name icon : value) (n m : Z) :
  0 <= n <= m ->
  (exists items more,
      RecentFiles_createItem h [name; icon; VNum n] = Ok (container name icon items) /\
      RecentFiles_createItem h [name; icon; VNum m] =
        Ok (container name icon (items ++ more)%list)) /\
  (forall r,
      FrequentlyUsed_createItem h [name; icon; VNum m] = Ok r ->
      exists items more,
        FrequentlyUsed_createItem h [name; icon; VNum n] =
          Ok (container name icon items) /\
        r = container name icon (items ++ more)%list).
Proof.
  intros [Hn Hm].
  assert (Hle : (Z.to_nat n <= Z.to_nat m)%nat) by lia.
  split.
  - do 2 eexists. rewrite !RecentFiles_createItem_eq. cbn [arg nth].
    rewrite !slice0_nonneg by lia.
    split; [reflexivity|].
    rewrite (firstn_le_split _ _ (Gtk_RecentManager_get_items h) Hle).
    now rewrite filter_app, map_app.
  - intros r H. rewrite FrequentlyUsed_createItem_eq in H |- *.
    destruct (deref "Shell" (Shell (load h))) as [shell|e]; [|discriminate].
    cbn [bind arg nth] in H |- *.
    rewrite slice0_nonneg in H |- * by lia.
    rewrite (firstn_le_split _ _ (Shell.AppUsage_get_most_used shell) Hle) in H.
    rewrite collect_app in H.
    apply bind_Ok_inv in H as (items & Hitems & H).
    apply bind_Ok_inv in Hitems as (ys & Hys & Hitems).
    apply bind_Ok_inv in Hitems as (zs & Hzs & Hitems).
    apply Ok_inj in Hitems, H. subst items r.
    exists ys, zs. now rewrite Hys.
Qed.

Lemma maxNum_monotone_witness :
  exists items more,
    RecentFiles_createItem (Example.desktop false)
      [VStr "Recent Files"; VStr "document-open-recent"; VNum 1] =
      Ok (container (VStr "Recent Files") (VStr "document-open-recent") items) /\
    RecentFiles_createItem (Example.desktop false)
      [VStr "Recent Files"; VStr "document-open-recent"; VNum 4] =
      Ok (container (VStr "Recent Files") (VStr "document-open-recent")
            (items ++ more)%list).
Proof.
  apply (maxNum_monotone (Example.desktop false)
           (VStr "Recent Files") (VStr "document-open-recent") 1 4).
  lia.
Defined.

(** ** Activations, failure by failure *)






(** X12. When opening a bookmark fails, the notification is formatted from
    [this.name] of the module scope and the error: it does not depend on the
    bookmark, so every bookmark reports the same text for the same error.
    When the module scope has no [this], reading [this.name] throws inside
    the handler: nothing is notified and the activation throws. *)
Theorem Bookmarks_notification (h : Host) (file : File.t) (e : error) :
  global_create_app_launch_context h = Ok tt ->
  Gio_AppInfo_launch_default_for_uri h (File.get_uri file) = Throw e ->
  match module_this h with
  | Some props =>
      activate h (Bookmarks_activate file) =
        ([Called create_app_launch_context false; Called File_get_uri false;
          Called launch_default_for_uri true;
          Notified (format h Bookmarks_message [get_prop "name" props; VStr e])],
         Ok tt)
  | None =>
      exists err,
        activate h (Bookmarks_activate file) =
          ([Called create_app_launch_context false; Called File_get_uri false;
            Called launch_default_for_uri true],
           Throw err)
  end.
Proof.
  intros Hcontext Hlaunch. cbn [activate]. rewrite Hcontext. cbn.
  rewrite Hlaunch. unfold this_name.
  destruct (module_this h) as [props|]; cbn; [reflexivity | now eexists].
Qed.

Lemma Bookmarks_notification_witness :
  notifications
    (fst (activate (Example.desktop true)
            (Bookmarks_activate (Example.file "/home/user/Music")))) =
  notifications
    (fst (activate (Example.desktop true)
            (Bookmarks_activate (Example.file "/home/user/Videos")))).
Proof.
  rewrite (Bookmarks_notification (Example.desktop true)
             (Example.file "/home/user/Music") "Error: the host call failed"
             eq_refl eq_refl).
  rewrite (Bookmarks_notification (Example.desktop true)
             (Example.file "/home/user/Videos") "Error: the host call failed"
             eq_refl eq_refl).
  reflexivity.
Defined.

(** X13. A File item is a Url item for the URI ['file://' + file]: both
    activations make the same single host call with the same outcome, and
    both return normally whether the call throws or not; they differ in the
    text of the notification only. *)
Theorem File_is_Url_with_scheme (h : Host) (file : value) :
  calls (fst (activate h (File_activate file))) =
    calls (fst (activate h (Url_activate (VStr ("file://" ++ ToString h file))))) /\
  snd (activate h (File_activate file)) = Ok tt /\
  snd (activate h (Url_activate (VStr ("file://" ++ ToString h file)))) = Ok tt /\
  (notifications (fst (activate h (File_activate file))) = [] <->
   notifications
     (fst (activate h (Url_activate (VStr ("file://" ++ ToString h file))))) = []).
Proof.
  cbn [activate ToString].
  destruct (Gio_AppInfo_launch_default_for_uri h ("file://" ++ ToString h file))
    as [[]|e]; cbn; repeat split; congruence.
Qed.

(** ** The returned record and the descriptor *)

(** X14. The record a factory returns carries the name and the icon of the
    call, unchanged, also when they are missing: the name and icon of the
    descriptor are not used as defaults.  The item types of the list
    'action-types-list' return a leaf, those of 'submenu-types-list' return a
    container. *)
Theorem createItem_top_level (key : string) (ty : ItemType.t) (h : Host)
        (args : list value) (r : value) :
  In (key, ty) ItemTypes ->
  ItemType.createItem ty h args = Ok r ->
  (ItemType.settingsList ty = "action-types-list" /\
   exists f, r = leaf (arg 0 args) (arg 1 args) f) \/
  (ItemType.settingsList ty = "submenu-types-list" /\
   exists items, r = container (arg 0 args) (arg 1 args) items).
Proof.
  intros Hin H. simpl in Hin.
  repeat (destruct Hin as [Hin|Hin];
          [injection Hin as <- <-;
           cbn [ItemType.createItem ItemType.settingsList] in H |- *|]);
    try contradiction.
  - left. split; [reflexivity|]. apply Ok_inj in H. subst r. now eexists.
  - left. split; [reflexivity|]. apply Ok_inj in H. subst r. now eexists.
  - left. split; [reflexivity|]. apply Ok_inj in H. subst r. now eexists.
  - left. split; [reflexivity|]. apply Ok_inj in H. subst r. now eexists.
  - right. split; [reflexivity|].
    rewrite Bookmarks_createItem_eq in H.
    apply bind_Ok_inv in H as (items & _ & H). apply Ok_inj in H. subst r.
    now eexists.
  - right. split; [reflexivity|]. rewrite RunningApps_createItem_eq in H.
    apply bind_Ok_inv in H as (shell & _ & H).
    apply bind_Ok_inv in H as (items & _ & H). apply Ok_inj in H. subst r.
    now eexists.
  - right. split; [reflexivity|].
    rewrite RecentFiles_createItem_eq in H. apply Ok_inj in H. subst r. now eexists.
  - right. split; [reflexivity|]. rewrite FrequentlyUsed_createItem_eq in H.
    apply bind_Ok_inv in H as (shell & _ & H).
    apply bind_Ok_inv in H as (items & _ & H). apply Ok_inj in H. subst r.
    now eexists.
  - right. split; [reflexivity|]. rewrite Favorites_createItem_eq in H.
    apply bind_Ok_inv in H as (g & _ & H).
    apply bind_Ok_inv in H as (items & _ & H). apply Ok_inj in H. subst r.
    now eexists.
  - right. split; [reflexivity|]. rewrite MainMenu_createItem_eq in H.
    apply bind_Ok_inv in H as (u & _ & H).
    apply bind_Ok_inv in H as (items & _ & H). apply Ok_inj in H. subst r.
    now eexists.
Qed.

Lemma createItem_top_level_witness :
  exists r,
    Bookmarks_createItem (Example.desktop false) [] = Ok r /\
    prop "name" r = VUndefined /\ prop "icon" r = VUndefined.
Proof.
  eexists. split; [reflexivity|].
  destruct (createItem_top_level "Bookmarks"
              {| ItemType.name := "Bookmarks";
                 ItemType.icon := "folder";
                 ItemType.description := "Shows your commonly used directories.";
                 ItemType.settingsType := SettingsTypes_ "NONE";
                 ItemType.settingsList := "submenu-types-list";
                 ItemType.createItem := Bookmarks_createItem |}
              (Example.desktop false) [] _
              ltac:(simpl; do 4 right; left; reflexivity) eq_refl)
    as [[Hlist _]|[_ (items & Hr)]].
  - discriminate Hlist.
  - rewrite Hr. split; reflexivity.
Defined.

(** X15. A factory reads its first three arguments at most, and a factory
    whose settings type is NONE reads the first two only: further arguments
    do not change what it returns or throws. *)
Theorem createItem_arguments (key : string) (ty : ItemType.t) (h : Host)
        (args : list value) :
  In (key, ty) ItemTypes ->
  ItemType.createItem ty h args =
    ItemType.createItem ty h [arg 0 args; arg 1 args; arg 2 args] /\
  (ItemType.settingsType ty = SettingsTypes_ "NONE" ->
   ItemType.createItem ty h args = ItemType.createItem ty h [arg 0 args; arg 1 args]).
Proof.
  intros Hin. simpl in Hin.
  repeat (destruct Hin as [Hin|Hin];
          [injection Hin as <- <-;
           cbn [ItemType.createItem ItemType.settingsType]|]);
    try contradiction;
    (split; [reflexivity | intros Hnone; try discriminate Hnone; reflexivity]).
Qed.

Lemma createItem_arguments_witness :
  Favorites_createItem (Example.desktop false)
    [VStr "Favorites"; VStr "starred"; VNum 1; VStr "more"] =
  Favorites_createItem (Example.desktop false) [VStr "Favorites"; VStr "starred"].
Proof.
  apply (proj2 (createItem_arguments "Favorites"
                  {| ItemType.name := "Favorites";
                     ItemType.icon := "starred";
                     ItemType.description := "Shows your pinned applications.";
                     ItemType.settingsType := SettingsTypes_ "NONE";
                     ItemType.settingsList := "submenu-types-list";
                     ItemType.createItem := Favorites_createItem |}
                  (Example.desktop false)
                  [VStr "Favorites"; VStr "starred"; VNum 1; VStr "more"]
                  ltac:(simpl; do 8 right; left; reflexivity))).
  reflexivity.
Defined.

(** ** What the items carry *)

Lemma Bookmarks_items_metadata (h : Host) (path : option string) (ys : list value) :
  Bookmarks_items h path = Ok ys ->
  Forall2
    (fun path item =>
       exists p,
         path = Some p /\
         (forall info,
             File.query_info (Gio_File_new_for_path h p) "standard::display-name"
               = Ok info ->
             prop "name" item = VStr (FileInfo.get_display_name info)) /\
         (forall info,
             File.query_info (Gio_File_new_for_path h p) "standard::icon" = Ok info ->
             prop "icon" item = VStr (Icon.to_string (FileInfo.get_icon info))))
    [path] ys.
Proof.
  unfold Bookmarks_items. destruct path as [p|]; cbn; intros H; [|discriminate].
  apply Ok_inj in H. subst ys. constructor; [|constructor].
  exists p. split; [reflexivity|]. unfold Bookmarks_item.
  split; intros info Hinfo; rewrite Hinfo; reflexivity.
Qed.

(** X16. In the record Bookmarks.createItem returns, the item of a directory
    whose metadata can be queried carries the display name and the icon
    which the host reports; the two queries are independent, so one can fall
    back while the other does not. *)
Theorem Bookmarks_metadata (h : Host) (args : list value) (r : value) :
  Bookmarks_createItem h args = Ok r ->
  Forall2
    (fun path item =>
       exists p,
         path = Some p /\
         (forall info,
             File.query_info (Gio_File_new_for_path h p) "standard::display-name"
               = Ok info ->
             prop "name" item = VStr (FileInfo.get_display_name info)) /\
         (forall info,
             File.query_info (Gio_File_new_for_path h p) "standard::icon" = Ok info ->
             prop "icon" item = VStr (Icon.to_string (FileInfo.get_icon info))))
    (Some (GLib_get_home_dir h) :: map (GLib_get_user_special_dir h) DEFAULT_DIRECTORIES)
    (items_of r).
Proof.
  intros H. rewrite Bookmarks_createItem_eq in H.
  apply bind_Ok_inv in H as (items & Hitems & H). apply Ok_inj in H. subst r.
  rewrite items_of_container.
  apply collect_Forall2
    with (R := fun path item =>
                 exists p,
                   path = Some p /\
                   (forall info,
                       File.query_info (Gio_File_new_for_path h p)
                         "standard::display-name" = Ok info ->
                       prop "name" item = VStr (FileInfo.get_display_name info)) /\
                   (forall info,
                       File.query_info (Gio_File_new_for_path h p)
                         "standard::icon" = Ok info ->
                       prop "icon" item =
                         VStr (Icon.to_string (FileInfo.get_icon info))))
         (keep := fun path : option string => [path])
    in Hitems; [|apply Bookmarks_items_metadata].
  rewrite flat_map_unit, map_id in Hitems. exact Hitems.
Qed.

Lemma Bookmarks_metadata_witness :
  exists r,
    Bookmarks_createItem (Example.desktop false) [VStr "Bookmarks"; VStr "folder"]
      = Ok r /\
    Forall2
      (fun path item =>
         exists p,
           path = Some p /\
           (forall info,
               File.query_info (Example.file p) "standard::display-name" = Ok info ->
               prop "name" item = VStr (FileInfo.get_display_name info)) /\
           (forall info,
               File.query_info (Example.file p) "standard::icon" = Ok info ->
               prop "icon" item = VStr (Icon.to_string (FileInfo.get_icon info))))
      (Some "/home/user" :: map Example.special_dir DEFAULT_DIRECTORIES)
      (items_of r).
Proof.
  eexists. split; [reflexivity|].
  exact (Bookmarks_metadata (Example.desktop false)
           [VStr "Bookmarks"; VStr "folder"] _ eq_refl).
Defined.

Lemma App_items_content (activate : App.t -> closure) (app : option App.t)
      (ys : list value) :
  App_items activate app = Ok ys ->
  Forall2
    (fun a item =>
       prop "name" item = VStr (App.get_name a) /\
       exists gicon,
         AppInfo.get_icon (App.get_app_info a) = Some gicon /\
         prop "icon" item = VStr (Icon.to_string gicon))
    (match app with Some a => [a] | None => [] end) ys.
Proof.
  destruct app as [app|]; cbn [App_items]; intros H.
  - destruct (AppInfo.get_icon (App.get_app_info app)) as [gicon|] eqn:Hicon;
      [|discriminate].
    cbn in H. apply Ok_inj in H. subst ys.
    constructor; [|constructor].
    split; [reflexivity|]. exists gicon. now split.
  - apply Ok_inj in H. subst ys. constructor.
Qed.

(** X17. The items of RecentFiles, FrequentlyUsed and Favorites carry the
    strings of the host entry they stem from: a recent file gives its
    display name and the string of its icon, an application gives its name
    and the string of the icon of its application info. *)
Theorem items_carry_host_strings (h : Host) (args : list value) :
  (exists r,
      RecentFiles_createItem h args = Ok r /\
      Forall2
        (fun recentFile item =>
           prop "name" item = VStr (RecentInfo.get_display_name recentFile) /\
           prop "icon" item = VStr (Icon.to_string (RecentInfo.get_gicon recentFile)))
        (filter RecentInfo.exists_
           (slice0 h (Gtk_RecentManager_get_items h) (arg 2 args)))
        (items_of r)) /\
  (forall shell r,
      Shell (load h) = Some shell ->
      FrequentlyUsed_createItem h args = Ok r ->
      Forall2
        (fun app item =>
           prop "name" item = VStr (App.get_name app) /\
           exists gicon,
             AppInfo.get_icon (App.get_app_info app) = Some gicon /\
             prop "icon" item = VStr (Icon.to_string gicon))
        (non_null (slice0 h (Shell.AppUsage_get_most_used shell) (arg 2 args)))
        (items_of r)) /\
  (forall shell r,
      Shell (load h) = Some shell ->
      Favorites_createItem h args = Ok r ->
      Forall2
        (fun app item =>
           prop "name" item = VStr (App.get_name app) /\
           exists gicon,
             AppInfo.get_icon (App.get_app_info app) = Some gicon /\
             prop "icon" item = VStr (Icon.to_string gicon))
        (non_null
           (map (Shell.AppSystem_lookup_app shell)
              (global_settings_get_strv h "favorite-apps")))
        (items_of r)).
Proof.
  split; [|split].
  - eexists. split; [apply RecentFiles_createItem_eq|].
    rewrite items_of_container. apply Forall2_map_r.
    intros recentFile. now split.
  - intros shell r Hshell H. rewrite FrequentlyUsed_createItem_eq in H.
    apply Shell_binding in Hshell. rewrite Hshell in H. cbn [bind] in H.
    apply bind_Ok_inv in H as (items & Hitems & H). apply Ok_inj in H. subst r.
    rewrite items_of_container.
    eapply collect_Forall2; [|exact Hitems]. apply App_items_content.
  - intros shell r Hshell H.
    rewrite Favorites_createItem_eq, (global_with_Shell h shell Hshell),
      (Favorites_collect h shell _ Hshell) in H. cbn [bind] in H.
    apply bind_Ok_inv in H as (items & Hitems & H). apply Ok_inj in H. subst r.
    rewrite items_of_container.
    eapply collect_Forall2; [|exact Hitems]. apply App_items_content.
Qed.

Lemma items_carry_host_strings_witness :
  exists r,
    Favorites_createItem (Example.desktop false) [VStr "Favorites"; VStr "starred"]
      = Ok r /\
    Forall2
      (fun app item =>
         prop "name" item = VStr (App.get_name app) /\
         exists gicon,
           AppInfo.get_icon (App.get_app_info app) = Some gicon /\
           prop "icon" item = VStr (Icon.to_string gicon))
      [Example.terminal false; Example.editor false]
      (items_of r).
Proof.
  eexists. split; [reflexivity|].
  exact (proj2 (proj2 (items_carry_host_strings (Example.desktop false)
                         [VStr "Favorites"; VStr "starred"]))
           (Example.shell false) _ eq_refl eq_refl).
Defined.
